(** * restart_anki: wait for a process, clean up or stage an add-on, relaunch

    A shallow embedding of [src/ankiscripts/restart_anki.c].  The program talks
    to Windows all the time and its wait loop has no bound, so every function
    that calls the operating system is an interaction tree over the events
    [osE]; the pure helpers ([ends_with], the command formatting, [atol]) are
    plain functions on strings and integers. *)

From Stdlib Require Import ZArith List String Ascii Bool Lia.
From Stdlib Require Import DecimalString.
From ITree Require Import ITree Eq.Shallow.
Import ListNotations.
Import ITreeNotations.
Local Open Scope string_scope.
Local Open Scope Z_scope.
Local Open Scope itree_scope.

(** ** C strings *)

Module CString.

(** A [const char *] is [None] for NULL and [Some s] for a pointer to the
    bytes of [s] followed by the terminator. *)
Definition cstr := option string.

Definition strlen (s : string) : Z := Z.of_nat (String.length s).

(** [p + n] for a pointer to the start of [s]: defined while it stays inside
    the array, terminator included. *)
Fixpoint advance (n : nat) (s : string) : option string :=
  match n with
  | O => Some s
  | S n' =>
      match s with
      | EmptyString => None
      | String _ s' => advance n' s'
      end
  end.

Definition ptr_add (s : string) (off : Z) : option string :=
  if off <? 0 then None else advance (Z.to_nat off) s.

(** [strcmp(a, b) == 0] *)
Definition strcmp_eq (a b : string) : bool := String.eqb a b.

Definition dquote : string := String (ascii_of_nat 34) EmptyString.
Definition newline : string := String (ascii_of_nat 10) EmptyString.

(** What [snprintf(buf, size, ...)] leaves in [buf] when the conversion
    would produce [s]: at most [size - 1] bytes, then the terminator. *)
Definition snprintf (size : nat) (s : string) : string :=
  String.substring 0 (size - 1) s.

(** [%lu] *)
Definition fmt_lu (n : Z) : string :=
  NilZero.string_of_uint (N.to_uint (Z.to_N n)).

(** [%s]; the C runtime prints a null pointer as [(null)]. *)
Definition fmt_s (s : cstr) : string :=
  match s with
  | Some s => s
  | None => "(null)"
  end.

(** [atol] of the C library the program is built against: white space, an
    optional sign, then the longest run of decimal digits; anything after it
    is ignored, no digit at all gives 0, and a value outside [long] (32 bits
    on Windows) gives the nearest bound. *)
Definition LONG_MAX : Z := 2147483647.
Definition LONG_MIN : Z := -2147483648.

Definition isspace (c : ascii) : bool :=
  let n := nat_of_ascii c in
  (Nat.eqb n 32 || (Nat.leb 9 n && Nat.leb n 13))%bool.

Definition isdigit (c : ascii) : bool :=
  let n := nat_of_ascii c in
  (Nat.leb 48 n && Nat.leb n 57)%bool.

Fixpoint skip_space (s : string) : string :=
  match s with
  | String c s' => if isspace c then skip_space s' else s
  | EmptyString => s
  end.

Fixpoint digits_value (acc : Z) (s : string) : Z :=
  match s with
  | String c s' =>
      if isdigit c
      then digits_value (acc * 10 + (Z.of_nat (nat_of_ascii c) - 48)) s'
      else acc
  | EmptyString => acc
  end.

Definition clamp_long (v : Z) : Z :=
  if v >? LONG_MAX then LONG_MAX
  else if v <? LONG_MIN then LONG_MIN
  else v.

Definition atol (s : string) : Z :=
  match skip_space s with
  | String "-" s' => clamp_long (- digits_value 0 s')
  | String "+" s' => clamp_long (digits_value 0 s')
  | s' => clamp_long (digits_value 0 s')
  end.

End CString.
Import CString.

(** ** The suffix test *)

(** [None] is a fault: a pointer moved out of the string it points into. *)
Definition ends_with (str suffix : cstr) : option bool :=
  match str, suffix with
  | Some str, Some suffix =>
      let str_len := strlen str in
      let suffix_len := strlen suffix in
      if suffix_len >? str_len then Some false
      else
        match ptr_add str (str_len - suffix_len) with
        | Some tail => Some (strcmp_eq tail suffix)
        | None => None
        end
  | _, _ => Some false
  end.

(** A null pointer or a string of no characters. *)
Definition null_or_empty (s : cstr) : bool :=
  match s with
  | None => true
  | Some s' => strlen s' =? 0
  end.

(** ** The operating system *)

Definition HANDLE := Z.
Definition DWORD := Z.
Definition NULL : Z := 0.

(** Values of the Windows SDK headers. *)
Definition STILL_ACTIVE : DWORD := 259.
Definition PROCESS_QUERY_INFORMATION : DWORD := 1024.
Definition CREATE_NO_WINDOW : DWORD := 134217728.
Definition CP_UTF8 : Z := 65001.
Definition FO_DELETE : Z := 3.
Definition FOF_SILENT : Z := 4.
Definition FOF_NOCONFIRMATION : Z := 16.
Definition FOF_ALLOWUNDO : Z := 64.
Definition sizeof_wchar_t : Z := 2.

Definition to_DWORD (v : Z) : DWORD := v mod 2 ^ 32.

(** [size_t] of a 64-bit build. *)
Definition to_size_t (v : Z) : Z := v mod 2 ^ 64.

Record PROCESS_INFORMATION := { hProcess : HANDLE; hThread : HANDLE }.

(** The calls the program makes, each with the type of what it gets back.
    Arguments the program always passes as NULL or as a zeroed structure are
    left out.  Pointers are passed as the source passes them.  A call that
    fills a buffer gives back, beside its result, what it wrote there
    ([MultiByteToWideChar]); a call that reads a buffer is handed the pointer
    and finds there what the calls before it left ([SHFileOperationW], whose
    [pFrom] is the [pFrom] field of the structure it is given). *)
Variant osE : Type -> Type :=
| OpenProcess (dwDesiredAccess : DWORD) (bInheritHandle : bool) (dwProcessId : DWORD) : osE HANDLE
| GetExitCodeProcess (h : HANDLE) : osE (bool * DWORD)
| CloseHandle (h : HANDLE) : osE bool
| Sleep (dwMilliseconds : DWORD) : osE unit
| MultiByteToWideChar (CodePage dwFlags : Z) (lpMultiByteStr : string) (cbMultiByte : Z)
    (lpWideCharStr : Z) (cchWideChar : Z) : osE (Z * list Z)
| malloc (size : Z) : osE Z
| free (p : Z) : osE unit
| SHFileOperationW (wFunc : Z) (pFrom : Z) (fFlags : Z) : osE Z
| DeleteFileA (path : string) : osE bool
| RemoveDirectoryA (path : string) : osE bool
| CreateProcessA (lpCommandLine : string) (bInheritHandles : bool) (dwCreationFlags : DWORD)
  : osE (bool * PROCESS_INFORMATION)
| printf (s : string) : osE unit.

(** One call together with its answer. *)
Inductive event : Type :=
| Ev {T : Type} (e : osE T) (r : T).

(** The system answers a call knowing everything that happened before it. *)
Definition OS := list event -> forall T, osE T -> T.

(** What a bounded run yields: the calls made, in order, with their answers;
    the steps not used; and the value returned, [None] while the program is
    still running. *)
Record outcome (R : Type) := Outcome { trace : list event; fuel_left : nat; result : option R }.
Arguments Outcome {R}.
Arguments trace {R}.
Arguments fuel_left {R}.
Arguments result {R}.

Definition prepend {R} (ev : event) (o : outcome R) : outcome R :=
  Outcome (ev :: trace o) (fuel_left o) (result o).

(** [run fuel os h t]: let [t] take at most [fuel] steps against [os], the
    calls [h] having been made before.  A step is a call or one turn of a
    loop. *)
Fixpoint run {R} (fuel : nat) (os : OS) (h : list event) (t : itree osE R) : outcome R :=
  match observe t with
  | RetF r => Outcome [] fuel (Some r)
  | TauF t' =>
      match fuel with
      | O => Outcome [] O None
      | S fuel' => run fuel' os h t'
      end
  | VisF e k =>
      match fuel with
      | O => Outcome [] O None
      | S fuel' =>
          let r := os h _ e in
          prepend (Ev e r) (run fuel' os (h ++ [Ev e r]) (k r))
      end
  end.

(** Sequencing of outcomes: [k] goes on from where [o] stopped. *)
Definition and_then {A B} (o : outcome A) (k : A -> list event -> nat -> outcome B) : outcome B :=
  match result o with
  | Some x =>
      let o' := k x (trace o) (fuel_left o) in
      Outcome (trace o ++ trace o') (fuel_left o') (result o')
  | None => Outcome (trace o) (fuel_left o) None
  end.

Definition call {T} (e : osE T) : itree osE T := ITree.trigger e.

(** [while (cond) { body }] *)
Definition while (cond : itree osE bool) (body : itree osE unit) : itree osE unit :=
  ITree.iter
    (fun _ : unit =>
       c <- cond ;;
       if c : bool then body ;; Ret (inl tt) else Ret (inr tt))
    tt.

(** ** The program *)

Definition is_process_running (pid : DWORD) : itree osE bool :=
  hProcess <- call (OpenProcess PROCESS_QUERY_INFORMATION false pid) ;;
  if hProcess =? NULL then Ret false
  else
    '(result, exitCode) <- call (GetExitCodeProcess hProcess) ;;
    call (CloseHandle hProcess) ;;
    Ret (result && (exitCode =? STILL_ACTIVE))%bool.

Definition send_to_trash (path : string) : itree osE bool :=
  '(len, _) <- call (MultiByteToWideChar CP_UTF8 0 path (-1) NULL 0) ;;
  if len =? 0 then Ret false
  else
    wpath <- call (malloc (to_size_t (len * sizeof_wchar_t))) ;;
    if wpath =? NULL then Ret false
    else
      call (MultiByteToWideChar CP_UTF8 0 path (-1) wpath len) ;;
      result <- call (SHFileOperationW FO_DELETE wpath
                        (Z.lor (Z.lor FOF_ALLOWUNDO FOF_NOCONFIRMATION) FOF_SILENT)) ;;
      call (free wpath) ;;
      if negb (result =? 0) then
        call (printf ("Recycle bin failed, attempting permanent deletion..." ++ newline)) ;;
        deleted <- call (DeleteFileA path) ;;
        if deleted : bool then Ret true
        else
          removed <- call (RemoveDirectoryA path) ;;
          if removed : bool then Ret true else Ret false
      else Ret true.

Definition command_size : nat := 2048.

Definition command_prefix (anki_exe anki_base : string) : string :=
  "cmd /c start /B " ++ dquote ++ dquote ++ " " ++ dquote ++ anki_exe ++ dquote
    ++ " -b " ++ dquote ++ anki_base ++ dquote.

(** The contents of [command] after the [snprintf] of either branch. *)
Definition launch_command (anki_exe anki_base : string) (package_file : cstr) : string :=
  match package_file with
  | Some package_file' =>
      if strlen package_file' >? 0
      then snprintf command_size
             (command_prefix anki_exe anki_base ++ " " ++ dquote ++ package_file' ++ dquote)
      else snprintf command_size (command_prefix anki_exe anki_base)
  | None => snprintf command_size (command_prefix anki_exe anki_base)
  end.

Definition launch_anki (anki_exe anki_base : string) (package_file : cstr) : itree osE bool :=
  let command := launch_command anki_exe anki_base package_file in
  call (printf ("Executing: " ++ command ++ newline)) ;;
  '(result, pi) <- call (CreateProcessA command false CREATE_NO_WINDOW) ;;
  if result : bool then
    call (CloseHandle pi.(hProcess)) ;;
    call (CloseHandle pi.(hThread)) ;;
    Ret true
  else Ret false.

Definition print_usage (program_name : cstr) : itree osE unit :=
  call (printf ("Usage: " ++ fmt_s program_name
                  ++ " <pid> <anki_exe> <anki_base> <addon_dir_or_package>" ++ newline)) ;;
  call (printf newline) ;;
  call (printf ("Arguments:" ++ newline)) ;;
  call (printf ("  pid                    Process ID to wait for" ++ newline)) ;;
  call (printf ("  anki_exe              Path to Anki executable" ++ newline)) ;;
  call (printf ("  anki_base             Anki base data directory" ++ newline)) ;;
  call (printf ("  addon_dir_or_package  Add-on directory to delete or package file "
                  ++ "to install" ++ newline)).

(** Exit status of a process that Windows stops on an access violation: what
    a faulting [ends_with] would end the program with. *)
Definition STATUS_ACCESS_VIOLATION : Z := 3221225477.

(** [argv[i]]; [argc] is the length of [argv]. *)
Definition arg (argv : list string) (i : nat) : string := nth i argv "".

Definition main (argv : list string) : itree osE Z :=
  let argc := Z.of_nat (List.length argv) in
  if negb (argc =? 5) then
    print_usage (nth_error argv 0) ;;
    Ret 1
  else
    let pid := to_DWORD (atol (arg argv 1)) in
    let anki_exe := arg argv 2 in
    let anki_base := arg argv 3 in
    let addon_dir_or_package := arg argv 4 in
    if pid =? 0 then
      call (printf ("Error: Invalid PID" ++ newline)) ;;
      Ret 1
    else
      call (printf ("Waiting for PID " ++ fmt_lu pid ++ " to exit..." ++ newline)) ;;
      while (is_process_running pid)
        (call (printf ("PID " ++ fmt_lu pid ++ " still running, sleeping..." ++ newline)) ;;
         call (Sleep 500)) ;;
      call (printf ("PID " ++ fmt_lu pid
                      ++ " is no longer running, proceeding to launch Anki." ++ newline)) ;;
      match ends_with (Some addon_dir_or_package) (Some ".ankiaddon") with
      | Some is_package =>
          package_file <-
            (if is_package : bool then
               call (printf ("Installing addon from package " ++ addon_dir_or_package
                               ++ "..." ++ newline)) ;;
               Ret (Some addon_dir_or_package)
             else
               call (printf ("Deleting addon directory " ++ addon_dir_or_package
                               ++ "..." ++ newline)) ;;
               trashed <- send_to_trash addon_dir_or_package ;;
               (if negb trashed
                then call (printf ("Warning: Failed to delete addon directory" ++ newline))
                else Ret tt) ;;
               Ret None) ;;
          launched <- launch_anki anki_exe anki_base package_file ;;
          if negb launched then
            call (printf ("Error: Failed to launch Anki" ++ newline)) ;;
            Ret 1
          else
            call (printf ("Anki launched successfully" ++ newline)) ;;
            Ret 0
      | None => Ret STATUS_ACCESS_VIOLATION
      end.

(** ** The parts of [main] *)

(** [main] is one function; its steps are named here so that each can be
    stated and proved on its own ([main_parts] puts them together again). *)

Definition package_suffix : string := ".ankiaddon".

(** The pid as [main] reads it. *)
Definition pid_of (argv : list string) : DWORD := to_DWORD (atol (arg argv 1)).

(** The body of the wait loop, and the loop. *)
Definition pause (pid : DWORD) : itree osE unit :=
  call (printf ("PID " ++ fmt_lu pid ++ " still running, sleeping..." ++ newline)) ;;
  call (Sleep 500).

Definition wait_for_exit (pid : DWORD) : itree osE unit :=
  while (is_process_running pid) (pause pid).

(** The package-or-directory step: what [package_file] holds after it. *)
Definition stage_or_delete (is_package : bool) (addon_dir_or_package : string) : itree osE cstr :=
  if is_package then
    call (printf ("Installing addon from package " ++ addon_dir_or_package
                    ++ "..." ++ newline)) ;;
    Ret (Some addon_dir_or_package)
  else
    call (printf ("Deleting addon directory " ++ addon_dir_or_package
                    ++ "..." ++ newline)) ;;
    trashed <- send_to_trash addon_dir_or_package ;;
    (if negb trashed
     then call (printf ("Warning: Failed to delete addon directory" ++ newline))
     else Ret tt) ;;
    Ret None.

(** The launch and the exit status. *)
Definition relaunch (anki_exe anki_base : string) (package_file : cstr) : itree osE Z :=
  launched <- launch_anki anki_exe anki_base package_file ;;
  if negb launched then
    call (printf ("Error: Failed to launch Anki" ++ newline)) ;;
    Ret 1
  else
    call (printf ("Anki launched successfully" ++ newline)) ;;
    Ret 0.

(** [main] once the loop is over. *)
Definition after_wait (pid : DWORD) (anki_exe anki_base addon_dir_or_package : string)
  : itree osE Z :=
  call (printf ("PID " ++ fmt_lu pid
                  ++ " is no longer running, proceeding to launch Anki." ++ newline)) ;;
  match ends_with (Some addon_dir_or_package) (Some package_suffix) with
  | Some is_package =>
      package_file <- stage_or_delete is_package addon_dir_or_package ;;
      relaunch anki_exe anki_base package_file
  | None => Ret STATUS_ACCESS_VIOLATION
  end.

(** ** Reading traces *)

(** What the two [snprintf] calls of [launch_anki] would write into a buffer
    of any size: the whole conversion. *)
Definition launch_format (anki_exe anki_base : string) (package_file : cstr) : string :=
  match package_file with
  | Some package_file' =>
      if strlen package_file' >? 0
      then command_prefix anki_exe anki_base ++ " " ++ dquote ++ package_file' ++ dquote
      else command_prefix anki_exe anki_base
  | None => command_prefix anki_exe anki_base
  end.

(** The call [e] made after the calls [h], with the answer [os] gives. *)
Definition ask (os : OS) (h : list event) {T} (e : osE T) : event := Ev e (os h _ e).

(** Kinds of calls. *)
Definition is_printf (ev : event) : bool :=
  match ev with
  | Ev (printf _) _ => true
  | _ => false
  end.

Definition is_sleep (ev : event) : bool :=
  match ev with
  | Ev (Sleep _) _ => true
  | _ => false
  end.

(** A call only [send_to_trash] makes. *)
Definition is_cleanup (ev : event) : bool :=
  match ev with
  | Ev (MultiByteToWideChar _ _ _ _ _ _) _
  | Ev (malloc _) _ | Ev (free _) _ | Ev (SHFileOperationW _ _ _) _
  | Ev (DeleteFileA _) _ | Ev (RemoveDirectoryA _) _ => true
  | _ => false
  end.

Definition is_launch (ev : event) : bool :=
  match ev with
  | Ev (CreateProcessA _ _ _) _ => true
  | _ => false
  end.

Definition is_cleanup_or_launch (ev : event) : bool := is_cleanup ev || is_launch ev.

(** The recycle-bin operation, by what it reported. *)
Definition recycle_succeeded (ev : event) : bool :=
  match ev with
  | Ev (SHFileOperationW _ _ _) r => r =? 0
  | _ => false
  end.

Definition recycle_failed (ev : event) : bool :=
  match ev with
  | Ev (SHFileOperationW _ _ _) r => negb (r =? 0)
  | _ => false
  end.

(** The two permanent deletes. *)
Definition is_fallback (ev : event) : bool :=
  match ev with
  | Ev (DeleteFileA _) _ | Ev (RemoveDirectoryA _) _ => true
  | _ => false
  end.

Definition fallback_succeeded (ev : event) : bool :=
  match ev with
  | Ev (DeleteFileA _) r | Ev (RemoveDirectoryA _) r => r
  | _ => false
  end.

(** One turn of the wait loop that found the process alive: the check, the
    message, the pause. *)
Definition running_round (pid : DWORD) (tr : list event) : Prop :=
  exists hp closed,
    hp <> NULL
    /\ tr = [Ev (OpenProcess PROCESS_QUERY_INFORMATION false pid) hp;
             Ev (GetExitCodeProcess hp) (true, STILL_ACTIVE);
             Ev (CloseHandle hp) closed;
             Ev (printf ("PID " ++ fmt_lu pid ++ " still running, sleeping..." ++ newline)) tt;
             Ev (Sleep 500) tt].

(** A check that did not find the process alive: no handle, or a handle whose
    exit code could not be read or is not [STILL_ACTIVE]. *)
Definition gone_check (pid : DWORD) (tr : list event) : Prop :=
  tr = [Ev (OpenProcess PROCESS_QUERY_INFORMATION false pid) NULL]
  \/ exists hp ok code closed,
       hp <> NULL
       /\ (ok = false \/ code <> STILL_ACTIVE)
       /\ tr = [Ev (OpenProcess PROCESS_QUERY_INFORMATION false pid) hp;
                Ev (GetExitCodeProcess hp) (ok, code);
                Ev (CloseHandle hp) closed].

(** A system in which every check of [pid] finds it alive. *)
Definition always_running (os : OS) (pid : DWORD) : Prop :=
  (forall h, os h _ (OpenProcess PROCESS_QUERY_INFORMATION false pid) <> NULL)
  /\ (forall h hp, os h _ (GetExitCodeProcess hp) = (true, STILL_ACTIVE)).

(** What the package-or-directory step of [main] does: for a package one
    message; for a directory a message and then [send_to_trash] on it, closed
    by the warning when the recycle bin and both permanent deletes failed.
    Either way nothing is launched yet. *)
Definition stage_trace (is_package : bool) (addon : string) (tr : list event) : Prop :=
  existsb is_launch tr = false
  /\ if is_package
     then tr = [Ev (printf ("Installing addon from package " ++ addon ++ "..." ++ newline)) tt]
     else exists size rest,
         tr = Ev (printf ("Deleting addon directory " ++ addon ++ "..." ++ newline)) tt
                :: Ev (MultiByteToWideChar CP_UTF8 0 addon (-1) NULL 0) size :: rest
         /\ (existsb recycle_failed tr = true ->
             existsb fallback_succeeded tr = false ->
             exists before,
               tr = (before
                       ++ [Ev (printf ("Warning: Failed to delete addon directory" ++ newline))
                             tt])%list).

(** The two messages around the wait loop. *)
Definition waiting_message (pid : DWORD) : event :=
  Ev (printf ("Waiting for PID " ++ fmt_lu pid ++ " to exit..." ++ newline)) tt.

Definition gone_message (pid : DWORD) : event :=
  Ev (printf ("PID " ++ fmt_lu pid
                ++ " is no longer running, proceeding to launch Anki." ++ newline)) tt.

(** What follows the answer of [CreateProcessA]. *)
Definition after_launch (created : bool) (pi : PROCESS_INFORMATION) (tr : list event) : Prop :=
  if created
  then exists closed closed',
      tr = [Ev (CloseHandle pi.(hProcess)) closed;
            Ev (CloseHandle pi.(hThread)) closed';
            Ev (printf ("Anki launched successfully" ++ newline)) tt]
  else tr = [Ev (printf ("Error: Failed to launch Anki" ++ newline)) tt].

(** The two calls every launch starts with. *)
Definition launch_calls (command : string) (created : bool) (pi : PROCESS_INFORMATION)
  : list event :=
  [Ev (printf ("Executing: " ++ command ++ newline)) tt;
   Ev (CreateProcessA command false CREATE_NO_WINDOW) (created, pi)].

(** Was [command] handed to [CreateProcessA]? *)
Definition launched_with (command : string) (ev : event) : bool :=
  match ev with
  | Ev (CreateProcessA c _ _) _ => String.eqb c command
  | _ => false
  end.

(** What [print_usage] prints. *)
Definition usage_lines (program_name : cstr) : list event :=
  [Ev (printf ("Usage: " ++ fmt_s program_name
                 ++ " <pid> <anki_exe> <anki_base> <addon_dir_or_package>" ++ newline)) tt;
   Ev (printf newline) tt;
   Ev (printf ("Arguments:" ++ newline)) tt;
   Ev (printf ("  pid                    Process ID to wait for" ++ newline)) tt;
   Ev (printf ("  anki_exe              Path to Anki executable" ++ newline)) tt;
   Ev (printf ("  anki_base             Anki base data directory" ++ newline)) tt;
   Ev (printf ("  addon_dir_or_package  Add-on directory to delete or package file "
                 ++ "to install" ++ newline)) tt].

(** A decimal integer, as the interface describes the pid: digits and nothing
    else. *)
Fixpoint all_digits (s : string) : bool :=
  match s with
  | String c s' => isdigit c && all_digits s'
  | EmptyString => true
  end.

Definition decimal_integer (s : string) : bool :=
  match s with
  | EmptyString => false
  | _ => all_digits s
  end.

(** Text that begins, after white space and one sign, with a digit. *)
Definition starts_with_number (s : string) : bool :=
  match skip_space s with
  | String "-" (String c _) | String "+" (String c _) => isdigit c
  | String c _ => isdigit c
  | EmptyString => false
  end.

(** ** Sample systems *)

(** A system that follows a script: the process is found alive by the first
    [alive] checks (told apart by the pauses made so far) and gone afterwards;
    the other calls get the answers listed. *)
Record script := {
  alive : nat;
  wide_length : Z;
  memory : Z;
  recycle : Z;
  delete_file : bool;
  remove_directory : bool;
  create_process : bool
}.

Definition scripted (a : script) : OS :=
  fun h T e =>
    match e in osE T return T with
    | OpenProcess _ _ _ =>
        if (List.length (filter is_sleep h) <? a.(alive))%nat then 8 else NULL
    | GetExitCodeProcess _ => (true, STILL_ACTIVE)
    | CloseHandle _ => true
    | Sleep _ => tt
    | MultiByteToWideChar _ _ _ _ _ _ => (a.(wide_length), [])
    | malloc _ => a.(memory)
    | free _ => tt
    | SHFileOperationW _ _ _ => a.(recycle)
    | DeleteFileA _ => a.(delete_file)
    | RemoveDirectoryA _ => a.(remove_directory)
    | CreateProcessA _ _ _ => (a.(create_process), {| hProcess := 12; hThread := 16 |})
    | printf _ => tt
    end.

(** The process is gone, the recycle bin works, the launch succeeds. *)
Definition fair_weather : script :=
  {| alive := 0; wide_length := 23; memory := 4096; recycle := 0;
     delete_file := false; remove_directory := false; create_process := true |}.

(** The process never goes away. *)
Definition stubborn : OS :=
  fun h T e =>
    match e in osE T return T with
    | OpenProcess _ _ _ => 8
    | e' => scripted fair_weather h _ e'
    end.

(** Sample invocations: a directory to delete, a package to install, a pid
    followed by text, a base directory of 2048 characters. *)
Definition directory_argv : list string :=
  ["restart_anki.exe"; "1234"; "C:\App\app.exe"; "C:\Data"; "C:\Data\addons\myaddon"].

Definition package_argv : list string :=
  ["restart_anki.exe"; "1234"; "C:\App\app.exe"; "C:\Data"; "C:\Data\my.ankiaddon"].

Definition trailing_text_argv : list string :=
  ["restart_anki.exe"; "12abc"; "C:\App\app.exe"; "C:\Data"; "C:\Data\addons\myaddon"].

Definition long_argv : list string :=
  ["restart_anki.exe"; "1234"; "C:\App\app.exe";
   string_of_list_ascii (List.repeat "a"%char 2048); "C:\Data\addons\myaddon"].

(** The recycle bin and both permanent deletes fail. *)
Definition nothing_deletes : script :=
  {| alive := 0; wide_length := 23; memory := 4096; recycle := 2;
     delete_file := false; remove_directory := false; create_process := true |}.

(** The process is found alive twice. *)
Definition two_rounds : script :=
  {| alive := 2; wide_length := 23; memory := 4096; recycle := 0;
     delete_file := false; remove_directory := false; create_process := true |}.

(** A system that converts: [MultiByteToWideChar] reports the length of the
    path with its terminator and, given a buffer, writes the path there as a
    wide string (one unit a byte, for paths of ASCII characters). *)
Definition wide (path : string) : list Z :=
  (map (fun c => Z.of_nat (nat_of_ascii c)) (list_ascii_of_string path) ++ [0])%list.

Definition converting : OS :=
  fun h T e =>
    match e in osE T return T with
    | MultiByteToWideChar _ _ path _ buffer _ =>
        (Z.of_nat (List.length (wide path)), if buffer =? NULL then [] else wide path)
    | e' => scripted fair_weather h _ e'
    end.

(** What Windows holds for a pid: nothing; a process that is running; a
    process that may not be opened; or a process that has exited with some
    code and whose process object is still there for [OpenProcess] to find. *)
Inductive process : Type :=
| absent
| running
| denied
| exited (code : DWORD).

(** Windows answering from a table of processes: [OpenProcess] gives a handle
    to a process that is there and may be opened, and [GetExitCodeProcess]
    gives [STILL_ACTIVE] for a running process and the exit code of one that
    has exited.  The other calls are answered as in fair weather. *)
Definition handle_of (pid : DWORD) : HANDLE := pid + 1.
Definition process_of (hp : HANDLE) : DWORD := hp - 1.

Definition windows (table : DWORD -> process) : OS :=
  fun h T e =>
    match e in osE T return T with
    | OpenProcess _ _ pid =>
        match table pid with
        | running | exited _ => handle_of pid
        | absent | denied => NULL
        end
    | GetExitCodeProcess hp =>
        match table (process_of hp) with
        | running => (true, STILL_ACTIVE)
        | exited code => (true, code)
        | absent | denied => (false, 0)
        end
    | e' => scripted fair_weather h _ e'
    end.

(** The package a run stages: its fourth argument when that ends in the
    suffix. *)
Definition staged_package (argv : list string) : cstr :=
  match ends_with (Some (arg argv 4)) (Some package_suffix) with
  | Some true => Some (arg argv 4)
  | _ => None
  end.

(** ** Resources *)

(** The handles a call hands to the program, and the handle a call gives
    back to the system. *)
Definition opened (ev : event) : list HANDLE :=
  match ev with
  | Ev (OpenProcess _ _ _) hp => if hp =? NULL then [] else [hp]
  | Ev (CreateProcessA _ _ _) (created, pi) =>
      if created : bool then [pi.(hProcess); pi.(hThread)] else []
  | _ => []
  end.

Definition closed (ev : event) : list HANDLE :=
  match ev with
  | Ev (CloseHandle hp) _ => [hp]
  | _ => []
  end.

(** The same for memory. *)
Definition allocated (ev : event) : list Z :=
  match ev with
  | Ev (malloc _) p => if p =? NULL then [] else [p]
  | _ => []
  end.

Definition freed (ev : event) : list Z :=
  match ev with
  | Ev (free p) _ => [p]
  | _ => []
  end.

(** The file or directory a call names, if it names one. *)
Definition named_path (ev : event) : option string :=
  match ev with
  | Ev (MultiByteToWideChar _ _ s _ _ _) _ => Some s
  | Ev (DeleteFileA s) _ | Ev (RemoveDirectoryA s) _ => Some s
  | _ => None
  end.

Definition names_only (path : string) (ev : event) : bool :=
  match named_path ev with
  | Some s => String.eqb s path
  | None => true
  end.

(** The recycle-bin operation as [send_to_trash] sets it up. *)
Definition is_recycle (ev : event) : bool :=
  match ev with
  | Ev (SHFileOperationW _ _ _) _ => true
  | _ => false
  end.

Definition recycle_flags : Z := Z.lor (Z.lor FOF_ALLOWUNDO FOF_NOCONFIRMATION) FOF_SILENT.

(** Everything [send_to_trash] can do with [path], and what it then returns:
    give up before any delete (no length, no memory), or convert the path,
    hand it to the recycle bin, free the buffer and, if the recycle bin
    failed, say so and try [DeleteFileA] and then [RemoveDirectoryA]. *)
Definition recycle_calls (path : string) (len wpath : Z) (written wchars : list Z)
    (count result : Z) : list event :=
  [Ev (MultiByteToWideChar CP_UTF8 0 path (-1) NULL 0) (len, written);
   Ev (malloc (to_size_t (len * sizeof_wchar_t))) wpath;
   Ev (MultiByteToWideChar CP_UTF8 0 path (-1) wpath len) (count, wchars);
   Ev (SHFileOperationW FO_DELETE wpath recycle_flags) result;
   Ev (free wpath) tt].

Inductive trash_trace (path : string) : list event -> bool -> Prop :=
| trash_no_length written :
    trash_trace path [Ev (MultiByteToWideChar CP_UTF8 0 path (-1) NULL 0) (0, written)] false
| trash_no_memory len written :
    len <> 0 ->
    trash_trace path
      [Ev (MultiByteToWideChar CP_UTF8 0 path (-1) NULL 0) (len, written);
       Ev (malloc (to_size_t (len * sizeof_wchar_t))) NULL] false
| trash_recycled len wpath written wchars count :
    len <> 0 -> wpath <> NULL ->
    trash_trace path (recycle_calls path len wpath written wchars count 0) true
| trash_file_deleted len wpath written wchars count result :
    len <> 0 -> wpath <> NULL -> result <> 0 ->
    trash_trace path
      (recycle_calls path len wpath written wchars count result
         ++ [Ev (printf ("Recycle bin failed, attempting permanent deletion..." ++ newline)) tt;
             Ev (DeleteFileA path) true]) true
| trash_directory_removed len wpath written wchars count result removed :
    len <> 0 -> wpath <> NULL -> result <> 0 ->
    trash_trace path
      (recycle_calls path len wpath written wchars count result
         ++ [Ev (printf ("Recycle bin failed, attempting permanent deletion..." ++ newline)) tt;
             Ev (DeleteFileA path) false;
             Ev (RemoveDirectoryA path) removed]) removed.

(** The block [send_to_trash] hands to the recycle bin.  [room size] is the
    number of [wchar_t] units a block of [size] bytes holds.  A conversion
    called with [cbMultiByte = -1] writes its input as one wide string: units
    other than 0 closed by a single 0.  [pFrom] has to point to a list of
    names closed by two 0 units in a row. *)
Definition INT_MAX : Z := 2147483647.

Definition room (size : Z) : Z := size / sizeof_wchar_t.

Fixpoint wide_string (units : list Z) : bool :=
  match units with
  | [] => false
  | [u] => u =? 0
  | u :: rest => negb (u =? 0) && wide_string rest
  end.

Fixpoint double_terminated (units : list Z) : bool :=
  match units with
  | [] => false
  | a :: rest =>
      match rest with
      | [] => false
      | b :: _ => ((a =? 0) && (b =? 0)) || double_terminated rest
      end
  end.

(** The package-or-directory step, with the delete spelled out. *)
Definition stage_shape (is_package : bool) (addon : string) (tr : list event) : Prop :=
  if is_package
  then tr = [Ev (printf ("Installing addon from package " ++ addon ++ "..." ++ newline)) tt]
  else exists trash deleted,
      trash_trace addon trash deleted
      /\ tr = (Ev (printf ("Deleting addon directory " ++ addon ++ "..." ++ newline)) tt
                 :: trash
                 ++ if deleted : bool
                    then []
                    else [Ev (printf ("Warning: Failed to delete addon directory" ++ newline))
                            tt])%list.

(** The calls made before the first one of a kind (all of them when there is
    none). *)
Fixpoint upto (p : event -> bool) (tr : list event) : list event :=
  match tr with
  | [] => []
  | ev :: tr' => if p ev then [] else ev :: upto p tr'
  end.

(** Was this line printed? *)
Definition says (line : string) (ev : event) : bool :=
  match ev with
  | Ev (printf s) _ => String.eqb s line
  | _ => false
  end.

(** Does the call leave other processes alone?  The only process [main] may
    ask about is [pid], and only to query it. *)
Definition watches_only (pid : DWORD) (ev : event) : bool :=
  match ev with
  | Ev (OpenProcess access inherit p) _ =>
      (access =? PROCESS_QUERY_INFORMATION) && negb inherit && (p =? pid)
  | _ => true
  end.

(** The line [main] prints when [send_to_trash] returned FALSE. *)
Definition warning : string := "Warning: Failed to delete addon directory" ++ newline.

(** Did a delete of any kind report success? *)
Definition deleted_something (tr : list event) : bool :=
  existsb recycle_succeeded tr || existsb fallback_succeeded tr.

(** The pauses made so far, and what the check made after the calls [h]
    finds. *)
Definition pauses (h : list event) : nat := List.length (filter is_sleep h).

Definition check_finds_alive (os : OS) (pid : DWORD) (h : list event) : Prop :=
  let open := OpenProcess PROCESS_QUERY_INFORMATION false pid in
  let hp := os h _ open in
  hp <> NULL /\ os (h ++ [Ev open hp])%list _ (GetExitCodeProcess hp) = (true, STILL_ACTIVE).

Definition check_finds_gone (os : OS) (pid : DWORD) (h : list event) : Prop :=
  let open := OpenProcess PROCESS_QUERY_INFORMATION false pid in
  let hp := os h _ open in
  let answer := os (h ++ [Ev open hp])%list _ (GetExitCodeProcess hp) in
  hp = NULL \/ fst answer = false \/ snd answer <> STILL_ACTIVE.

(** ** Running programs *)

Lemma main_parts (argv : list string) :
  main argv
  = if negb (Z.of_nat (List.length argv) =? 5) then
      print_usage (nth_error argv 0) ;;
      Ret 1
    else if pid_of argv =? 0 then
      call (printf ("Error: Invalid PID" ++ newline)) ;;
      Ret 1
    else
      call (printf ("Waiting for PID " ++ fmt_lu (pid_of argv) ++ " to exit..." ++ newline)) ;;
      wait_for_exit (pid_of argv) ;;
      after_wait (pid_of argv) (arg argv 2) (arg argv 3) (arg argv 4).
Proof. reflexivity. Qed.

Lemma run_Ret {R} (os : OS) (fuel : nat) (h : list event) (r : R) :
  run fuel os h (Ret r) = Outcome [] fuel (Some r).
Proof. destruct fuel; reflexivity. Qed.

Lemma outcome_eta {R} (o : outcome R) :
  Outcome (trace o) (fuel_left o) (result o) = o.
Proof. destruct o; reflexivity. Qed.

Lemma and_then_Some {A B} (d : list event) (fuel : nat) (x : A)
    (k : A -> list event -> nat -> outcome B) :
  and_then (Outcome d fuel (Some x)) k
  = Outcome (d ++ trace (k x d fuel)) (fuel_left (k x d fuel)) (result (k x d fuel)).
Proof. reflexivity. Qed.

Lemma and_then_None {A B} (d : list event) (fuel : nat)
    (k : A -> list event -> nat -> outcome B) :
  and_then (Outcome d fuel None) k = Outcome d fuel None.
Proof. reflexivity. Qed.

Lemma prepend_Outcome {R} (ev : event) (d : list event) (fuel : nat) (r : option R) :
  prepend ev (Outcome d fuel r) = Outcome (ev :: d) fuel r.
Proof. reflexivity. Qed.

Lemma unit_tt (u : unit) : u = tt.
Proof. now destruct u. Qed.

Ltac outcome_simpl :=
  repeat (progress (rewrite ?and_then_Some, ?and_then_None, ?run_Ret, ?app_nil_r;
                    cbn [trace fuel_left result])).

Ltac destruct_if :=
  match goal with
  | |- context [if ?c then _ else _] => destruct c eqn:?
  end.

Section Run.

Variable os : OS.

Lemma run_observe {R} (t u : itree osE R) (fuel : nat) (h : list event) :
  observe t = observe u -> run fuel os h t = run fuel os h u.
Proof. intros E. destruct fuel; cbn; rewrite E; reflexivity. Qed.

Lemma run_bind {A B} (t : itree osE A) (k : A -> itree osE B) :
  forall fuel h,
    run fuel os h (ITree.bind t k)
    = and_then (run fuel os h t) (fun x d fuel' => run fuel' os (h ++ d) (k x)).
Proof.
  intros fuel; revert t.
  induction fuel as [|fuel IH]; intros t h.
  - cbn [run]. rewrite observe_bind.
    destruct (observe t) eqn:Ht.
    + unfold and_then; cbn [trace fuel_left result app]. rewrite app_nil_r.
      symmetry. apply outcome_eta.
    + reflexivity.
    + reflexivity.
  - cbn [run]. rewrite observe_bind.
    destruct (observe t) eqn:Ht.
    + unfold and_then; cbn [trace fuel_left result app]. rewrite app_nil_r.
      symmetry. apply outcome_eta.
    + apply IH.
    + cbn. rewrite IH. unfold and_then, prepend; cbn [trace fuel_left result].
      destruct (result _); cbn [trace fuel_left result]; rewrite <- ?app_assoc; reflexivity.
Qed.

Lemma run_call {T} (e : osE T) (fuel : nat) (h : list event) :
  run (S fuel) os h (call e) = Outcome [Ev e (os h _ e)] fuel (Some (os h _ e)).
Proof. cbn. rewrite run_Ret. reflexivity. Qed.

Lemma run_call_bind {T R} (e : osE T) (k : T -> itree osE R) (fuel : nat) (h : list event) :
  run (S fuel) os h (ITree.bind (call e) k)
  = prepend (Ev e (os h _ e)) (run fuel os (h ++ [Ev e (os h _ e)]) (k (os h _ e))).
Proof. cbn. f_equal. apply run_observe. reflexivity. Qed.

Lemma run_while (cond : itree osE bool) (body : itree osE unit) (fuel : nat) (h : list event) :
  run fuel os h (while cond body)
  = and_then (run fuel os h cond) (fun c d fuel' =>
      if c : bool then
        and_then (run fuel' os (h ++ d) body) (fun _ d' fuel'' =>
          match fuel'' with
          | O => Outcome [] O None
          | S fuel3 => run fuel3 os ((h ++ d) ++ d') (while cond body)
          end)
      else Outcome [] fuel' (Some tt)).
Proof.
  unfold while at 1.
  rewrite (run_observe _ _ _ _ (observing_observe (unfold_aloop_ _ tt))).
  rewrite !run_bind.
  destruct (run fuel os h cond) as [d fuel' [[|]|]]; outcome_simpl.
  - rewrite run_bind.
    destruct (run fuel' os (h ++ d) body) as [d' fuel'' [[]|]]; outcome_simpl.
    + destruct fuel'' as [|fuel3];
        cbn [run observe _observe trace fuel_left result];
        rewrite ?app_nil_r, <- ?app_assoc; reflexivity.
    + reflexivity.
  - reflexivity.
  - reflexivity.
Qed.

Lemma run_more_fuel {R} (t : itree osE R) (r : R) :
  forall fuel h, result (run fuel os h t) = Some r ->
    forall n, run (fuel + n) os h t
              = Outcome (trace (run fuel os h t)) (fuel_left (run fuel os h t) + n) (Some r).
Proof.
  intros fuel; revert t.
  induction fuel as [|fuel IH]; intros t h Hr n.
  - destruct n as [|n]; cbn in *; destruct (observe t); cbn in *;
      try discriminate; congruence.
  - cbn in *. destruct (observe t).
    + cbn in *. congruence.
    + now apply IH.
    + cbn [prepend trace fuel_left result] in *. now rewrite IH.
Qed.

Lemma run_fuel_left {R} (t : itree osE R) :
  forall fuel h, (fuel_left (run fuel os h t) <= fuel)%nat.
Proof.
  intros fuel; revert t.
  induction fuel as [|fuel IH]; intros t h; cbn; destruct (observe t); cbn; auto.
Qed.

Lemma run_trace_prefix {R} (t : itree osE R) :
  forall fuel n h, exists rest,
    trace (run (fuel + n) os h t) = (trace (run fuel os h t) ++ rest)%list.
Proof.
  intros fuel; revert t.
  induction fuel as [|fuel IH]; intros t n h.
  - cbn [run Nat.add]. destruct (observe t) eqn:Ht; cbn [trace app]; eauto.
  - cbn [run Nat.add]. destruct (observe t); cbn [trace app prepend].
    + now exists [].
    + apply IH.
    + destruct (IH (k (os h X e)) n (h ++ [Ev e (os h X e)])%list) as [rest Hrest].
      exists rest. now rewrite Hrest.
Qed.

(** No call of a kind that a longer run does not make. *)
Lemma run_none_of {R} (t : itree osE R) (p : event -> bool) (fuel n : nat) (h : list event) :
  existsb p (trace (run (n + fuel) os h t)) = false ->
  existsb p (trace (run fuel os h t)) = false.
Proof.
  destruct (run_trace_prefix t fuel n h) as [rest Hrest].
  rewrite Nat.add_comm, Hrest, existsb_app. intros H.
  now apply orb_false_iff in H.
Qed.

Lemma run_is_process_running (pid : DWORD) (fuel : nat) (h : list event) :
  let open := OpenProcess PROCESS_QUERY_INFORMATION false pid in
  let hp := os h _ open in
  let query := GetExitCodeProcess hp in
  let answer := os (h ++ [Ev open hp])%list _ query in
  run (3 + fuel) os h (is_process_running pid)
  = if hp =? NULL
    then Outcome [Ev open hp] (2 + fuel) (Some false)
    else Outcome [Ev open hp; Ev query answer;
                  ask os (h ++ [Ev open hp; Ev query answer]) (CloseHandle hp)]
           fuel (Some (fst answer && (snd answer =? STILL_ACTIVE))%bool).
Proof.
  cbv zeta. unfold is_process_running, ask. cbn [Nat.add].
  rewrite run_call_bind.
  destruct_if.
  - rewrite run_Ret. reflexivity.
  - rewrite run_call_bind.
    destruct (os (h ++ _)%list _ (GetExitCodeProcess _)) as [ok code] eqn:Hquery.
    rewrite run_call_bind, run_Ret. unfold prepend; cbn [trace fuel_left result fst snd].
    rewrite <- !app_assoc. reflexivity.
Qed.

End Run.

(** ** Strings *)

Lemma length_append (a b : string) :
  String.length (a ++ b) = (String.length a + String.length b)%nat.
Proof. induction a as [|c a IH]; cbn; [reflexivity | now rewrite IH]. Qed.

Lemma advance_append (p t : string) : advance (String.length p) (p ++ t) = Some t.
Proof. induction p as [|c p IH]; cbn; [reflexivity | exact IH]. Qed.

Lemma advance_inside (n : nat) :
  forall s, (n <= String.length s)%nat ->
    exists p t, advance n s = Some t /\ s = p ++ t /\ String.length p = n.
Proof.
  induction n as [|n IH]; intros s Hn.
  - exists "", s. repeat split.
  - destruct s as [|c s]; cbn in Hn; [lia|].
    destruct (IH s) as (p & t & Ha & Hs & Hp); [lia|].
    exists (String c p), t. cbn. rewrite Ha, Hp. repeat split. now rewrite Hs at 1.
Qed.

Lemma substring_prefix (n : nat) :
  forall s, exists rest, s = substring 0 n s ++ rest.
Proof.
  induction n as [|n IH]; intros [|c s]; cbn.
  - now exists "".
  - now exists (String c s).
  - now exists "".
  - destruct (IH s) as [rest Hr]. exists rest. now rewrite <- Hr.
Qed.

Lemma substring_length (n : nat) :
  forall s, String.length (substring 0 n s) = Nat.min n (String.length s).
Proof.
  induction n as [|n IH]; intros [|c s]; cbn; try reflexivity.
  now rewrite IH.
Qed.

Lemma substring_all (n : nat) :
  forall s, (String.length s <= n)%nat -> substring 0 n s = s.
Proof.
  induction n as [|n IH]; intros [|c s]; cbn; intros Hn; try reflexivity; try lia.
  rewrite IH; [reflexivity | lia].
Qed.

(** ** The suffix test *)

Lemma ends_with_total (str suffix : cstr) : exists b, ends_with str suffix = Some b.
Proof.
  destruct str as [s|], suffix as [x|]; cbn; eauto.
  unfold strlen, ptr_add.
  destruct (Z.of_nat (String.length x) >? Z.of_nat (String.length s)) eqn:Hgt; eauto.
  assert (Hle : (String.length x <= String.length s)%nat) by lia.
  destruct (Z.ltb_spec (Z.of_nat (String.length s) - Z.of_nat (String.length x)) 0); [lia|].
  destruct (advance_inside (Z.to_nat (Z.of_nat (String.length s) - Z.of_nat (String.length x))) s)
    as (p & t & Ha & _); [lia|].
  rewrite Ha. eauto.
Qed.

Lemma ends_with_iff_suffix (s x : string) :
  ends_with (Some s) (Some x) = Some true <-> exists p, s = p ++ x.
Proof.
  cbn. unfold strlen, ptr_add, strcmp_eq. split.
  - destruct (Z.of_nat (String.length x) >? Z.of_nat (String.length s)) eqn:Hgt; [discriminate|].
    destruct (Z.ltb_spec (Z.of_nat (String.length s) - Z.of_nat (String.length x)) 0); [lia|].
    destruct (advance_inside (Z.to_nat (Z.of_nat (String.length s) - Z.of_nat (String.length x))) s)
      as (p & t & Ha & Hs & _); [lia|].
    rewrite Ha. intros [= Heq]. apply String.eqb_eq in Heq. subst t. now exists p.
  - intros [p ->]. rewrite length_append.
    destruct (Z.gtb_spec (Z.of_nat (String.length x))
                (Z.of_nat (String.length p + String.length x))); [lia|].
    destruct (Z.ltb_spec (Z.of_nat (String.length p + String.length x)
                          - Z.of_nat (String.length x)) 0); [lia|].
    replace (Z.to_nat _) with (String.length p) by lia.
    now rewrite advance_append, String.eqb_refl.
Qed.

(** C4, as amended.  The three sample calls give true, false and false; a
    null string or a null suffix gives false; an empty string gives false
    against every suffix that is not empty; an empty suffix gives TRUE against
    every string that is not null; and no call faults, whatever it is given. *)
Theorem ends_with_behaviour :
  ends_with (Some "foo.ankiaddon") (Some ".ankiaddon") = Some true
  /\ ends_with (Some "foo.zip") (Some ".ankiaddon") = Some false
  /\ ends_with (Some "") (Some ".ankiaddon") = Some false
  /\ (forall suffix, ends_with None suffix = Some false)
  /\ (forall str, ends_with str None = Some false)
  /\ (forall c suffix, ends_with (Some "") (Some (String c suffix)) = Some false)
  /\ (forall str, ends_with (Some str) (Some "") = Some true)
  /\ (forall str suffix, exists b, ends_with str suffix = Some b).
Proof.
  repeat apply conj; try reflexivity.
  - now intros [s|].
  - intros str. apply ends_with_iff_suffix. exists str.
    induction str as [|c s IH]; cbn; [reflexivity | now rewrite <- IH].
  - apply ends_with_total.
Qed.

(** C4 as the specification words it, that every null or empty input gives
    false, fails: an empty suffix is a suffix of [foo.zip]. *)
Lemma ends_with_empty_suffix_is_true :
  ~ (forall str suffix : cstr,
        null_or_empty str = true \/ null_or_empty suffix = true ->
        ends_with str suffix = Some false).
Proof.
  intros H. specialize (H (Some "foo.zip") (Some "") (or_intror eq_refl)).
  discriminate H.
Qed.

(** ** The launch *)

Lemma launch_command_snprintf (anki_exe anki_base : string) (package_file : cstr) :
  launch_command anki_exe anki_base package_file
  = snprintf command_size (launch_format anki_exe anki_base package_file).
Proof.
  unfold launch_command, launch_format.
  destruct package_file as [p|]; [destruct (strlen p >? 0)|]; reflexivity.
Qed.

Lemma run_launch_anki (os : OS) (h : list event) (fuel : nat)
    (anki_exe anki_base : string) (package_file : cstr) :
  let command := launch_command anki_exe anki_base package_file in
  let e1 := Ev (printf ("Executing: " ++ command ++ newline)) tt in
  let create := CreateProcessA command false CREATE_NO_WINDOW in
  let e2 := ask os (h ++ [e1]) create in
  let pi := snd (os (h ++ [e1])%list _ create) in
  let e3 := ask os (h ++ [e1; e2]) (CloseHandle pi.(hProcess)) in
  let e4 := ask os (h ++ [e1; e2; e3]) (CloseHandle pi.(hThread)) in
  run (4 + fuel) os h (launch_anki anki_exe anki_base package_file)
  = if fst (os (h ++ [e1])%list _ create)
    then Outcome [e1; e2; e3; e4] fuel (Some true)
    else Outcome [e1; e2] (2 + fuel) (Some false).
Proof.
  cbv zeta. unfold launch_anki, ask. cbn [Nat.add].
  rewrite run_call_bind.
  rewrite (unit_tt (os h unit _)).
  rewrite run_call_bind.
  destruct (os (h ++ _)%list _ (CreateProcessA _ _ _)) as [[|] pi] eqn:Hcreate;
    cbn [fst snd].
  - rewrite !run_call_bind, run_Ret. unfold prepend; cbn [trace fuel_left result].
    rewrite <- !app_assoc. reflexivity.
  - rewrite run_Ret. reflexivity.
Qed.

(** C9.  With no package file (a null pointer) and with an empty package file
    name [launch_anki] is the same program: it builds the same command, the
    one without a third quoted argument, and makes the same calls. *)
Theorem launch_anki_null_is_empty (anki_exe anki_base : string) :
  launch_anki anki_exe anki_base None = launch_anki anki_exe anki_base (Some "")
  /\ launch_command anki_exe anki_base None = launch_command anki_exe anki_base (Some "")
  /\ launch_command anki_exe anki_base (Some "")
     = snprintf command_size
         ("cmd /c start /B " ++ dquote ++ dquote ++ " " ++ dquote ++ anki_exe ++ dquote
            ++ " -b " ++ dquote ++ anki_base ++ dquote).
Proof. repeat apply conj; reflexivity. Qed.

(** C10.  The command [launch_anki] builds never has more than 2047
    characters: it is the first 2047 characters of the formatted text, all of
    it when that is short enough, and this command, cut or not, is what
    [CreateProcessA] is called with. *)
Theorem launch_command_bounded (os : OS) (h : list event) (fuel : nat)
    (anki_exe anki_base : string) (package_file : cstr) :
  let command := launch_command anki_exe anki_base package_file in
  let text := launch_format anki_exe anki_base package_file in
  (String.length command <= 2047)%nat
  /\ String.length command = Nat.min 2047 (String.length text)
  /\ command = substring 0 2047 text
  /\ (exists cut, text = command ++ cut)
  /\ exists answer rest,
       trace (run (4 + fuel) os h (launch_anki anki_exe anki_base package_file))
       = Ev (printf ("Executing: " ++ command ++ newline)) tt
           :: Ev (CreateProcessA command false CREATE_NO_WINDOW) answer :: rest.
Proof.
  cbv zeta.
  pose proof (launch_command_snprintf anki_exe anki_base package_file) as Hcmd.
  unfold snprintf, command_size in Hcmd. change (2048 - 1)%nat with 2047%nat in Hcmd.
  repeat apply conj.
  - rewrite Hcmd, substring_length. lia.
  - rewrite Hcmd. apply substring_length.
  - exact Hcmd.
  - rewrite Hcmd. apply substring_prefix.
  - pose proof (run_launch_anki os h fuel anki_exe anki_base package_file) as Hrun.
    cbv zeta in Hrun. rewrite Hrun. unfold ask.
    destruct (fst _); cbn [trace]; eauto.
Qed.

(** ** The wait loop *)

Section Wait.

Variable os : OS.
Variable pid : DWORD.

Lemma run_pause (fuel : nat) (h : list event) :
  run (2 + fuel) os h (pause pid)
  = Outcome [Ev (printf ("PID " ++ fmt_lu pid ++ " still running, sleeping..." ++ newline)) tt;
             Ev (Sleep 500) tt] fuel (Some tt).
Proof.
  unfold pause. cbn [Nat.add].
  rewrite run_call_bind, run_call. unfold prepend; cbn [trace fuel_left result].
  rewrite !(unit_tt (os _ unit _)). reflexivity.
Qed.

(** What a run that returned did is what a longer run does. *)
Lemma run_returned {R} (t : itree osE R) (fuel n : nat) (h : list event) (x : R)
    (o : outcome R) :
  result (run fuel os h t) = Some x ->
  run (n + fuel) os h t = o ->
  trace (run fuel os h t) = trace o /\ result o = Some x
  /\ (fuel_left (run fuel os h t) + n)%nat = fuel_left o.
Proof.
  intros Hx Ho. rewrite Nat.add_comm, (run_more_fuel os t x fuel h Hx n) in Ho.
  subst o. cbn. auto.
Qed.

Lemma wait_returned_shape :
  forall fuel h,
    result (run fuel os h (wait_for_exit pid)) = Some tt ->
    exists rounds last,
      trace (run fuel os h (wait_for_exit pid)) = (List.concat rounds ++ last)%list
      /\ Forall (running_round pid) rounds
      /\ gone_check pid last.
Proof.
  intros fuel. induction fuel as [fuel IH] using lt_wf_ind. intros h.
  unfold wait_for_exit. rewrite run_while.
  destruct (run fuel os h (is_process_running pid)) as [d fuel1 [c|]] eqn:Hcheck;
    [|rewrite and_then_None; discriminate].
  assert (Hc : result (run fuel os h (is_process_running pid)) = Some c)
    by now rewrite Hcheck.
  destruct (run_returned _ fuel 3 h c _ Hc (run_is_process_running os pid fuel h))
    as (Htr & Hres & Hfl).
  rewrite Hcheck in Htr, Hfl; cbn [trace fuel_left] in Htr, Hfl.
  rewrite and_then_Some.
  destruct (os h _ (OpenProcess PROCESS_QUERY_INFORMATION false pid) =? NULL) eqn:Hnull;
    cbn [trace result fuel_left] in Htr, Hres, Hfl.
  - injection Hres as <-. cbn [trace result]. intros _.
    exists [], d. rewrite app_nil_r. repeat split; [constructor|].
    left. rewrite Htr. apply Z.eqb_eq in Hnull. now rewrite Hnull.
  - apply Z.eqb_neq in Hnull.
    destruct (os (h ++ _)%list _ (GetExitCodeProcess _)) as [ok code] eqn:Hquery.
    cbn [fst snd] in Hres. injection Hres as <-.
    destruct (ok && (code =? STILL_ACTIVE))%bool eqn:Hverdict.
    + apply andb_true_iff in Hverdict as [-> Hcode]. apply Z.eqb_eq in Hcode. subst code.
      destruct (run fuel1 os (h ++ d) (pause pid)) as [d' fuel2 [[]|]] eqn:Hpause;
        [|rewrite and_then_None; discriminate].
      assert (Hp : result (run fuel1 os (h ++ d) (pause pid)) = Some tt) by now rewrite Hpause.
      destruct (run_returned _ fuel1 2 (h ++ d) tt _ Hp (run_pause fuel1 (h ++ d)))
        as (Htr' & _ & Hfl').
      rewrite Hpause in Htr', Hfl'; cbn [trace fuel_left] in Htr', Hfl'.
      rewrite and_then_Some. cbn [trace result].
      destruct fuel2 as [|fuel3]; [discriminate|].
      change (while (is_process_running pid) (pause pid)) with (wait_for_exit pid).
      intros Hrest.
      destruct (IH fuel3 ltac:(lia) _ Hrest) as (rounds & last & Heq & Hrounds & Hlast).
      exists ((d ++ d')%list :: rounds), last. cbn [List.concat].
      rewrite Heq, <- !app_assoc. repeat split; [|exact Hlast].
      constructor; [|exact Hrounds].
      rewrite Htr, Htr'. unfold ask. eexists _, _. split; [exact Hnull | reflexivity].
    + cbn [trace result]. intros _.
      exists [], d. rewrite app_nil_r. repeat split; [constructor|].
      right. rewrite Htr. unfold ask. eexists _, ok, code, _.
      split; [exact Hnull|]. split; [|reflexivity].
      apply andb_false_iff in Hverdict as [->|Hcode]; [now left|].
      right. now apply Z.eqb_neq.
Qed.

Lemma check_only_waits (fuel : nat) (h : list event) :
  existsb is_cleanup_or_launch (trace (run fuel os h (is_process_running pid))) = false.
Proof.
  apply (run_none_of os _ _ fuel 3). rewrite run_is_process_running.
  destruct_if; reflexivity.
Qed.

Lemma pause_only_waits (fuel : nat) (h : list event) :
  existsb is_cleanup_or_launch (trace (run fuel os h (pause pid))) = false.
Proof. apply (run_none_of os _ _ fuel 2). now rewrite run_pause. Qed.

Lemma wait_only_waits :
  forall fuel h,
    existsb is_cleanup_or_launch (trace (run fuel os h (wait_for_exit pid))) = false.
Proof.
  intros fuel. induction fuel as [fuel IH] using lt_wf_ind. intros h.
  unfold wait_for_exit. rewrite run_while.
  pose proof (check_only_waits fuel h) as Hcheck.
  pose proof (run_fuel_left os (is_process_running pid) fuel h) as Hfuel1.
  destruct (run fuel os h (is_process_running pid)) as [d fuel1 [[|]|]];
    cbn [trace fuel_left] in Hcheck, Hfuel1; outcome_simpl; try exact Hcheck.
  pose proof (pause_only_waits fuel1 (h ++ d)) as Hpause.
  pose proof (run_fuel_left os (pause pid) fuel1 (h ++ d)) as Hfuel2.
  destruct (run fuel1 os (h ++ d) (pause pid)) as [d' fuel2 [[]|]];
    cbn [trace fuel_left] in Hpause, Hfuel2; outcome_simpl;
    rewrite !existsb_app, Hcheck, Hpause; cbn [orb]; [|reflexivity].
  destruct fuel2 as [|fuel3]; [reflexivity|].
  change (while (is_process_running pid) (pause pid)) with (wait_for_exit pid).
  apply IH. lia.
Qed.

Lemma wait_never_returns :
  always_running os pid ->
  forall fuel h, result (run fuel os h (wait_for_exit pid)) = None.
Proof.
  intros [Hopen Hquery] fuel. induction fuel as [fuel IH] using lt_wf_ind. intros h.
  unfold wait_for_exit. rewrite run_while.
  pose proof (run_fuel_left os (is_process_running pid) fuel h) as Hfuel1.
  destruct (run fuel os h (is_process_running pid)) as [d fuel1 [c|]] eqn:Hcheck;
    cbn [fuel_left] in Hfuel1; outcome_simpl; [|reflexivity].
  assert (Hc : result (run fuel os h (is_process_running pid)) = Some c)
    by now rewrite Hcheck.
  destruct (run_returned _ fuel 3 h c _ Hc (run_is_process_running os pid fuel h))
    as (_ & Hres & _).
  specialize (Hopen h). apply Z.eqb_neq in Hopen. rewrite Hopen, Hquery in Hres.
  cbn in Hres. injection Hres as <-.
  pose proof (run_fuel_left os (pause pid) fuel1 (h ++ d)) as Hfuel2.
  destruct (run fuel1 os (h ++ d) (pause pid)) as [d' fuel2 [[]|]];
    cbn [fuel_left] in Hfuel2; outcome_simpl; [|reflexivity].
  destruct fuel2 as [|fuel3]; [reflexivity|].
  change (while (is_process_running pid) (pause pid)) with (wait_for_exit pid).
  apply IH. lia.
Qed.

End Wait.

(** ** Symbolic runs *)

(** The answers of the system are arbitrary: once a call is made its answer
    is named and, where it is a pair or the unit value, taken apart. *)
Ltac name_answer :=
  match goal with
  | |- context [Ev ?e (?os ?h ?T ?e)] =>
      is_var os;
      let r := fresh "answer" in
      generalize (os h T e); intro r;
      lazymatch T with
      | unit => destruct r
      | prod _ _ => destruct r
      | _ => idtac
      end
  end.

Ltac run_step :=
  first
    [ rewrite run_Ret
    | rewrite run_call_bind; name_answer
    | rewrite run_call; name_answer
    | rewrite and_then_Some
    | rewrite and_then_None
    | rewrite prepend_Outcome
    | progress cbn [trace fuel_left result app negb]
    | match goal with
      | |- context [run _ _ _ (if ?c then _ else _)] => destruct c eqn:?
      end
    | rewrite run_bind ].

(** Put the tests a run has passed to use. *)
Ltac use_tests :=
  repeat match goal with
    | H : negb _ = true |- _ => apply negb_true_iff in H
    | H : negb _ = false |- _ => apply negb_false_iff in H
    | H : (_ =? _) = _ |- _ => rewrite ?H; clear H
    end.

(** Run the program the goal is about, whatever the goal says of the run. *)
Ltac run_all :=
  cbv zeta; cbn [Nat.add];
  repeat run_step; cbv beta; cbn [prepend trace fuel_left result].

(** Find the call a statement singles out in a trace that is written out. *)
Lemma split_here {A} (x : A) (l : list A) : x :: l = ([] ++ x :: l)%list.
Proof. reflexivity. Qed.

Lemma split_later {A} (y x : A) (b l a : list A) :
  l = (b ++ x :: a)%list -> y :: l = ((y :: b) ++ x :: a)%list.
Proof. now intros ->. Qed.

Ltac split_trace := first [ apply split_here | apply split_later; split_trace ].

(** ** The delete *)

(** The delete itself: [send_to_trash] always returns; when the recycle
    bin reports success the result is TRUE and neither permanent delete is
    called; when it reports failure [DeleteFileA] is called first and
    [RemoveDirectoryA] only if that fails, and the result is TRUE exactly when
    one of the two succeeds. *)
Lemma send_to_trash_fallback (os : OS) (h : list event) (path : string) (fuel : nat) :
  let o := run (8 + fuel) os h (send_to_trash path) in
  exists deleted,
    result o = Some deleted
    /\ (existsb recycle_succeeded (trace o) = true ->
        deleted = true /\ existsb is_fallback (trace o) = false)
    /\ (existsb recycle_failed (trace o) = true ->
        deleted = existsb fallback_succeeded (trace o)
        /\ exists before file after,
             trace o = (before ++ Ev (DeleteFileA path) file :: after)%list
             /\ existsb is_fallback before = false
             /\ after = if file then [] else [Ev (RemoveDirectoryA path) deleted]).
Proof.
  unfold send_to_trash. run_all.
  all: cbn [existsb recycle_succeeded recycle_failed is_fallback fallback_succeeded orb].
  all: eexists; split; [reflexivity|].
  all: use_tests; cbn [negb orb].
  all: split; [intros Hok; try discriminate Hok; split; reflexivity|].
  all: intros Hfailed; try discriminate Hfailed.
  all: split; [reflexivity|].
  all: eexists _, _, _; split; [split_trace|]; split; reflexivity.
Qed.

(** ** After the wait *)

Section AfterWait.

Variable os : OS.

Lemma run_stage_or_delete (h : list event) (is_package : bool) (addon : string) (fuel : nat) :
  exists tr n,
    run (10 + fuel) os h (stage_or_delete is_package addon)
    = Outcome tr n (Some (if is_package then Some addon else None))
    /\ (fuel <= n)%nat
    /\ stage_trace is_package addon tr.
Proof.
  unfold stage_or_delete, send_to_trash, stage_trace. run_all.
  all: eexists _, _; split; [reflexivity|]; split; [lia|]; split; [reflexivity|].
  all: try reflexivity.
  all: eexists _, _; split; [reflexivity|].
  all: cbn [existsb recycle_failed fallback_succeeded orb]; use_tests; cbn [negb orb].
  all: intros Hfailed; try discriminate Hfailed.
  all: intros Hfallback; try discriminate Hfallback.
  all: eexists; split_trace.
Qed.

Lemma run_relaunch (h : list event) (anki_exe anki_base : string) (package_file : cstr)
    (fuel : nat) :
  exists created pi after n,
    run (5 + fuel) os h (relaunch anki_exe anki_base package_file)
    = Outcome (launch_calls (launch_command anki_exe anki_base package_file) created pi
                 ++ after)
        n (Some (if created then 0 else 1))
    /\ (fuel <= n)%nat
    /\ after_launch created pi after.
Proof.
  unfold relaunch, launch_anki, after_launch, launch_calls. run_all.
  all: match goal with
       | |- context [Ev (CreateProcessA _ _ _) (?c, ?q)] => exists c, q
       end.
  all: eexists _, _; split; [reflexivity|]; split; [lia|]; cbv iota; eauto.
Qed.

Lemma run_after_wait (h : list event) (pid : DWORD) (anki_exe anki_base addon : string)
    (fuel : nat) :
  exists (is_package : bool) stage (created : bool) pi after n,
    ends_with (Some addon) (Some package_suffix) = Some is_package
    /\ run (16 + fuel) os h (after_wait pid anki_exe anki_base addon)
       = Outcome
           (gone_message pid
              :: stage
              ++ launch_calls
                   (launch_command anki_exe anki_base
                      (if is_package then Some addon else None)) created pi
              ++ after)
           n (Some (if created then 0 else 1))
    /\ (fuel <= n)%nat
    /\ stage_trace is_package addon stage
    /\ after_launch created pi after.
Proof.
  destruct (ends_with_total (Some addon) (Some package_suffix)) as [is_package Hsuffix].
  unfold after_wait. rewrite Hsuffix. cbn [Nat.add].
  rewrite run_call_bind, (unit_tt (os _ unit _)), run_bind.
  match goal with
  | |- context [run _ os ?h' (stage_or_delete _ _)] =>
      destruct (run_stage_or_delete h' is_package addon (5 + fuel))
        as (stage & n1 & Hstage & Hn1 & Hshape)
  end.
  cbn [Nat.add] in Hstage. rewrite Hstage, and_then_Some.
  match goal with
  | |- context [run n1 os ?h' (relaunch _ _ ?pkg)] =>
      destruct (run_relaunch h' anki_exe anki_base pkg (n1 - 5))
        as (created & pi & after & n & Hlaunch & Hn & Hafter)
  end.
  replace (5 + (n1 - 5))%nat with n1 in Hlaunch by lia.
  rewrite Hlaunch. unfold prepend; cbn [trace fuel_left result].
  exists is_package, stage, created, pi, after, n.
  split; [reflexivity|]. split; [reflexivity|]. split; [lia|]. now split.
Qed.

End AfterWait.

(** ** The whole program *)

Section Main.

Variable os : OS.
Variable argv : list string.
Hypothesis five : List.length argv = 5%nat.
Hypothesis pid_ok : pid_of argv <> 0.

Local Abbreviation waiting := (waiting_message (pid_of argv)).

Lemma run_main (fuel : nat) :
  run (S fuel) os [] (main argv)
  = prepend (waiting)
      (and_then (run fuel os [waiting] (wait_for_exit (pid_of argv)))
         (fun _ d fuel' =>
            run fuel' os (waiting :: d)
              (after_wait (pid_of argv) (arg argv 2) (arg argv 3) (arg argv 4)))).
Proof.
  rewrite main_parts, five. cbn [Z.of_nat Pos.of_succ_nat Pos.succ Z.eqb Pos.eqb negb].
  apply Z.eqb_neq in pid_ok. rewrite pid_ok.
  rewrite run_call_bind, (unit_tt (os _ unit _)), run_bind. reflexivity.
Qed.

Lemma run_main_0 : run 0 os [] (main argv) = Outcome [] 0 None.
Proof.
  rewrite main_parts, five. cbn [Z.of_nat Pos.of_succ_nat Pos.succ Z.eqb Pos.eqb negb].
  apply Z.eqb_neq in pid_ok. rewrite pid_ok. reflexivity.
Qed.

(** A run of [main] that is over: the message, a wait that saw the process
    gone without doing anything else, and then the rest of [main], which is
    given here more fuel than it needs. *)
Lemma main_completed (fuel : nat) (code : Z) :
  result (run fuel os [] (main argv)) = Some code ->
  exists w n,
    let rest := run (16 + n) os (waiting :: w)
                  (after_wait (pid_of argv) (arg argv 2) (arg argv 3) (arg argv 4)) in
    trace (run fuel os [] (main argv)) = ((waiting :: w) ++ trace rest)%list
    /\ result rest = Some code
    /\ existsb is_cleanup_or_launch (waiting :: w) = false
    /\ exists rounds last,
         w = (List.concat rounds ++ last)%list
         /\ Forall (running_round (pid_of argv)) rounds
         /\ gone_check (pid_of argv) last.
Proof.
  destruct fuel as [|fuel]; [rewrite run_main_0; discriminate|].
  rewrite run_main.
  pose proof (wait_only_waits os (pid_of argv) fuel [waiting]) as Hquiet.
  pose proof (wait_returned_shape os (pid_of argv) fuel [waiting]) as Hshape.
  destruct (run fuel os [waiting] (wait_for_exit (pid_of argv))) as [w n [[]|]];
    cbn [trace result] in Hquiet, Hshape; outcome_simpl;
    unfold prepend; cbn [trace result]; [|discriminate].
  intros Hcode. exists w, n. cbv zeta.
  rewrite (Nat.add_comm 16 n), (run_more_fuel os _ code n _ Hcode 16).
  cbn [trace result]. repeat split.
  - exact Hquiet.
  - now apply Hshape.
Qed.

(** The shape of every run of [main] that is over. *)
Lemma main_returned (fuel : nat) (code : Z) :
  result (run fuel os [] (main argv)) = Some code ->
  exists w (is_package : bool) stage (created : bool) pi after,
    trace (run fuel os [] (main argv))
    = ((waiting :: w)
         ++ gone_message (pid_of argv)
         :: stage
         ++ launch_calls
              (launch_command (arg argv 2) (arg argv 3)
                 (if is_package then Some (arg argv 4) else None)) created pi
         ++ after)%list
    /\ code = (if created then 0 else 1)
    /\ ends_with (Some (arg argv 4)) (Some package_suffix) = Some is_package
    /\ existsb is_cleanup_or_launch (waiting :: w) = false
    /\ (exists rounds last,
           w = (List.concat rounds ++ last)%list
           /\ Forall (running_round (pid_of argv)) rounds
           /\ gone_check (pid_of argv) last)
    /\ stage_trace is_package (arg argv 4) stage
    /\ after_launch created pi after.
Proof.
  intros Hcode.
  destruct (main_completed fuel code Hcode) as (w & n & Htrace & Hresult & Hquiet & Hshape).
  cbv zeta in Htrace, Hresult.
  destruct (run_after_wait os (waiting :: w) (pid_of argv) (arg argv 2) (arg argv 3)
              (arg argv 4) n)
    as (is_package & stage & created & pi & after & n' & Hsuffix & Hrun & _ & Hstage & Hafter).
  rewrite Hrun in Htrace, Hresult. cbn [trace result] in Htrace, Hresult.
  exists w, is_package, stage, created, pi, after.
  repeat (split; [first [assumption | congruence] |]). assumption.
Qed.

(** While it runs, too, [main] deletes and launches nothing before a check
    has found the process gone. *)
Lemma main_waits_first (fuel : nat) :
  existsb is_cleanup_or_launch (trace (run fuel os [] (main argv))) = true ->
  exists rounds last rest,
    trace (run fuel os [] (main argv))
    = ((waiting :: List.concat rounds ++ last) ++ rest)%list
    /\ Forall (running_round (pid_of argv)) rounds
    /\ gone_check (pid_of argv) last
    /\ existsb is_cleanup_or_launch (waiting :: List.concat rounds ++ last) = false.
Proof.
  destruct fuel as [|fuel]; [rewrite run_main_0; discriminate|].
  rewrite run_main.
  pose proof (wait_only_waits os (pid_of argv) fuel [waiting]) as Hquiet.
  pose proof (wait_returned_shape os (pid_of argv) fuel [waiting]) as Hshape.
  destruct (run fuel os [waiting] (wait_for_exit (pid_of argv))) as [w n [[]|]];
    cbn [trace result] in Hquiet, Hshape; outcome_simpl;
    unfold prepend; cbn [trace result].
  - intros _. destruct (Hshape eq_refl) as (rounds & last & -> & Hrounds & Hlast).
    eexists rounds, last, _.
    split; [reflexivity|]. split; [assumption|]. split; [assumption|]. exact Hquiet.
  - intros Hsome. change (existsb is_cleanup_or_launch w = true) in Hsome. congruence.
Qed.

(** With a process that never goes away [main] never returns, and only
    waits. *)
Lemma main_never_returns (fuel : nat) :
  always_running os (pid_of argv) ->
  result (run fuel os [] (main argv)) = None
  /\ existsb is_cleanup_or_launch (trace (run fuel os [] (main argv))) = false.
Proof.
  intros Halive.
  destruct fuel as [|fuel]; [rewrite run_main_0; now split|].
  rewrite run_main.
  pose proof (wait_only_waits os (pid_of argv) fuel [waiting]) as Hquiet.
  pose proof (wait_never_returns os (pid_of argv) Halive fuel [waiting]) as Hnever.
  destruct (run fuel os [waiting] (wait_for_exit (pid_of argv))) as [w n [[]|]];
    cbn [trace result] in Hquiet, Hnever; [discriminate|].
  outcome_simpl. unfold prepend; cbn [trace result]. split; [reflexivity|exact Hquiet].
Qed.

(** Once the wait is over the rest of [main] takes at most 16 steps. *)
Lemma main_finishes (fuel : nat) :
  result (run fuel os [waiting] (wait_for_exit (pid_of argv))) = Some tt ->
  exists code, result (run (17 + fuel) os [] (main argv)) = Some code.
Proof.
  intros Hwait. change (17 + fuel)%nat with (S (16 + fuel)). rewrite run_main.
  rewrite (Nat.add_comm 16 fuel), (run_more_fuel os _ tt fuel _ Hwait 16), and_then_Some.
  unfold prepend; cbn [trace fuel_left result].
  destruct (run_after_wait os
              (waiting :: trace (run fuel os [waiting] (wait_for_exit (pid_of argv))))
              (pid_of argv) (arg argv 2) (arg argv 3) (arg argv 4)
              (fuel_left (run fuel os [waiting] (wait_for_exit (pid_of argv)))))
    as (is_package & stage & created & pi & after & n' & _ & Hrun & _).
  rewrite (Nat.add_comm _ 16), Hrun. cbn [result]. eauto.
Qed.

End Main.


(** ** Lists of calls *)

Lemma existsb_none_weaken (p q : event -> bool) (l : list event) :
  (forall ev, q ev = true -> p ev = true) ->
  existsb p l = false -> existsb q l = false.
Proof.
  intros Hqp. induction l as [|ev l IH]; cbn; [reflexivity|].
  intros H. apply orb_false_iff in H as [Hev Hl].
  rewrite (IH Hl), orb_false_r.
  destruct (q ev) eqn:Hq; [|reflexivity]. now rewrite (Hqp ev Hq) in Hev.
Qed.

Lemma is_launch_kind (ev : event) : is_launch ev = true -> is_cleanup_or_launch ev = true.
Proof. unfold is_cleanup_or_launch. intros ->. apply orb_true_r. Qed.

Lemma is_cleanup_kind (ev : event) : is_cleanup ev = true -> is_cleanup_or_launch ev = true.
Proof. unfold is_cleanup_or_launch. now intros ->. Qed.

Lemma recycle_failed_kind (ev : event) :
  recycle_failed ev = true -> is_cleanup_or_launch ev = true.
Proof. destruct ev as [T [] r]; cbn; congruence. Qed.

Lemma launch_split (a s z : list event) (g : event) (command : string) (created : bool)
    (pi : PROCESS_INFORMATION) :
  (a ++ g :: s ++ launch_calls command created pi ++ z)%list
  = ((a ++ g :: s ++ [Ev (printf ("Executing: " ++ command ++ newline)) tt])
       ++ Ev (CreateProcessA command false CREATE_NO_WINDOW) (created, pi) :: z)%list.
Proof.
  unfold launch_calls. rewrite <- !app_assoc. cbn [app]. rewrite <- !app_assoc. reflexivity.
Qed.

Lemma before_launch_quiet (a s : list event) (pid : DWORD) (command : string) :
  existsb is_cleanup_or_launch a = false ->
  existsb is_launch s = false ->
  existsb is_launch
    (a ++ gone_message pid :: s ++ [Ev (printf ("Executing: " ++ command ++ newline)) tt])
  = false.
Proof.
  intros Ha Hs. rewrite existsb_app. cbn [existsb]. rewrite existsb_app, Hs.
  rewrite (existsb_none_weaken _ _ _ is_launch_kind Ha). reflexivity.
Qed.

Lemma after_launch_quiet (created : bool) (pi : PROCESS_INFORMATION) (after : list event) :
  after_launch created pi after -> existsb is_cleanup_or_launch after = false.
Proof.
  unfold after_launch. destruct created.
  - intros (closed & closed' & ->). reflexivity.
  - intros ->. reflexivity.
Qed.

(** ** The launch decides *)

(** C8.  With five arguments and a pid that is not 0, [main] returns as soon
    as its wait is over, and a run that has returned called [CreateProcessA]
    exactly once: it answered failure and the run printed the error and
    returned 1, or it answered success and the run closed the two handles,
    said so and returned 0.  Nothing else enters the exit status. *)
Theorem launch_decides_exit_status (os : OS) (argv : list string) (fuel : nat) :
  List.length argv = 5%nat ->
  pid_of argv <> 0 ->
  (result (run fuel os [waiting_message (pid_of argv)] (wait_for_exit (pid_of argv)))
   = Some tt ->
   exists code, result (run (17 + fuel) os [] (main argv)) = Some code)
  /\ forall code,
      result (run fuel os [] (main argv)) = Some code ->
      exists before command created pi after,
        trace (run fuel os [] (main argv))
        = (before ++ Ev (CreateProcessA command false CREATE_NO_WINDOW) (created, pi)
             :: after)%list
        /\ existsb is_launch before = false
        /\ existsb is_launch after = false
        /\ after_launch created pi after
        /\ code = (if created then 0 else 1).
Proof.
  intros Hfive Hpid. split; [apply (main_finishes os argv Hfive Hpid)|].
  intros code Hcode.
  destruct (main_returned os argv Hfive Hpid fuel code Hcode)
    as (w & is_package & stage & created & pi & after
        & Htrace & Hexit & _ & Hquiet & _ & [Hstage _] & Hafter).
  rewrite launch_split in Htrace.
  eexists _, _, created, pi, after. split; [exact Htrace|].
  split; [now apply before_launch_quiet|].
  split; [|now split].
  apply (existsb_none_weaken _ _ _ is_launch_kind), (after_launch_quiet _ _ _ Hafter).
Qed.

Lemma launch_decides_exit_status_witness :
  exists before command created pi after,
    trace (run 20 (scripted fair_weather) [] (main directory_argv))
    = (before ++ Ev (CreateProcessA command false CREATE_NO_WINDOW) (created, pi)
         :: after)%list
    /\ existsb is_launch before = false
    /\ existsb is_launch after = false
    /\ after_launch created pi after
    /\ 0 = (if created then 0 else 1).
Proof.
  apply (proj2 (launch_decides_exit_status (scripted fair_weather) directory_argv 20
                  eq_refl ltac:(vm_compute; discriminate)) 0).
  vm_compute. reflexivity.
Defined.

(** ** The command *)

Lemma package_not_empty (addon : string) :
  ends_with (Some addon) (Some package_suffix) = Some true -> (strlen addon >? 0) = true.
Proof.
  intros H. apply ends_with_iff_suffix in H as [stem ->].
  unfold strlen. rewrite length_append. cbn [package_suffix String.length].
  apply Z.gtb_lt. lia.
Qed.

Lemma staged_command (anki_exe anki_base addon : string) (is_package : bool) :
  ends_with (Some addon) (Some package_suffix) = Some is_package ->
  launch_command anki_exe anki_base (if is_package then Some addon else None)
  = substring 0 2047
      (if is_package
       then command_prefix anki_exe anki_base ++ " " ++ dquote ++ addon ++ dquote
       else command_prefix anki_exe anki_base).
Proof.
  intros H. destruct is_package; [|reflexivity].
  unfold launch_command. now rewrite (package_not_empty addon H).
Qed.

(** C7, as amended.  A run that returned 0 called [CreateProcessA] once, with
    the first 2047 characters of the text
    [cmd /c start /B <q><q> <q>exe<q> -b <q>base<q>], where [<q>] is a double
    quote, followed by [ <q>package<q>] exactly when the fourth argument ends
    in the package suffix; when the text has at most 2047 characters, that is
    the whole text. *)
Theorem launch_command_shape (os : OS) (argv : list string) (fuel : nat) :
  List.length argv = 5%nat ->
  pid_of argv <> 0 ->
  result (run fuel os [] (main argv)) = Some 0 ->
  exists (is_package : bool) before pi after,
    let text :=
      if is_package
      then command_prefix (arg argv 2) (arg argv 3) ++ " " ++ dquote ++ arg argv 4 ++ dquote
      else command_prefix (arg argv 2) (arg argv 3) in
    ends_with (Some (arg argv 4)) (Some package_suffix) = Some is_package
    /\ trace (run fuel os [] (main argv))
       = (before
            ++ Ev (CreateProcessA (substring 0 2047 text) false CREATE_NO_WINDOW) (true, pi)
            :: after)%list
    /\ existsb is_launch before = false
    /\ existsb is_launch after = false
    /\ ((String.length text <= 2047)%nat -> substring 0 2047 text = text).
Proof.
  intros Hfive Hpid Hcode.
  destruct (main_returned os argv Hfive Hpid fuel 0 Hcode)
    as (w & is_package & stage & created & pi & after
        & Htrace & Hexit & Hsuffix & Hquiet & _ & [Hstage _] & Hafter).
  destruct created; [|discriminate Hexit].
  rewrite launch_split, (staged_command _ _ _ _ Hsuffix) in Htrace.
  exists is_package. eexists _, pi, after. cbv zeta.
  split; [exact Hsuffix|]. split; [exact Htrace|].
  split; [now apply before_launch_quiet|].
  split; [|apply substring_all].
  apply (existsb_none_weaken _ _ _ is_launch_kind), (after_launch_quiet _ _ _ Hafter).
Qed.

Lemma launch_command_shape_witness :
  exists (is_package : bool) before pi after,
    let text :=
      if is_package
      then command_prefix (arg package_argv 2) (arg package_argv 3)
             ++ " " ++ dquote ++ arg package_argv 4 ++ dquote
      else command_prefix (arg package_argv 2) (arg package_argv 3) in
    ends_with (Some (arg package_argv 4)) (Some package_suffix) = Some is_package
    /\ trace (run 20 (scripted fair_weather) [] (main package_argv))
       = (before
            ++ Ev (CreateProcessA (substring 0 2047 text) false CREATE_NO_WINDOW) (true, pi)
            :: after)%list
    /\ existsb is_launch before = false
    /\ existsb is_launch after = false
    /\ ((String.length text <= 2047)%nat -> substring 0 2047 text = text).
Proof.
  apply (launch_command_shape (scripted fair_weather) package_argv 20
           eq_refl ltac:(vm_compute; discriminate)).
  vm_compute. reflexivity.
Defined.

(** C7 as the specification words it, the whole text for every successful
    run, fails: with a base directory of 2048 characters the run returns 0
    and [CreateProcessA] gets a command cut off inside the base directory. *)
Lemma long_command_is_cut :
  ~ (forall (os : OS) (argv : list string) (fuel : nat),
        List.length argv = 5%nat ->
        pid_of argv <> 0 ->
        result (run fuel os [] (main argv)) = Some 0 ->
        existsb
          (launched_with (launch_format (arg argv 2) (arg argv 3) (staged_package argv)))
          (trace (run fuel os [] (main argv))) = true).
Proof.
  intros H.
  specialize (H (scripted fair_weather) long_argv 20%nat eq_refl).
  assert (Hrun : result (run 20 (scripted fair_weather) [] (main long_argv)) = Some 0)
    by (vm_compute; reflexivity).
  specialize (H ltac:(vm_compute; discriminate) Hrun).
  vm_compute in H. discriminate H.
Qed.

(** ** Package or directory *)

Lemma existsb_pieces (p : event -> bool) (a s c z : list event) (g : event) :
  existsb p (a ++ g :: s ++ c ++ z)
  = (existsb p a || (p g || (existsb p s || (existsb p c || existsb p z))))%bool.
Proof. rewrite existsb_app. cbn [existsb]. now rewrite !existsb_app. Qed.

(** C2.  In a run of [main] that returned, the fourth argument is treated as
    a package exactly when it is some text followed by [.ankiaddon], letter
    for letter.  A package is announced and named in the one launch command,
    and no call of [send_to_trash] is made anywhere in the run.  Anything else
    is announced as a directory and handed to [send_to_trash], and the one
    launch command is the one [launch_anki] builds without a package. *)
Theorem branch_selector (os : OS) (argv : list string) (fuel : nat) (code : Z) :
  List.length argv = 5%nat ->
  pid_of argv <> 0 ->
  result (run fuel os [] (main argv)) = Some code ->
  exists (is_package : bool) before created pi after,
    ends_with (Some (arg argv 4)) (Some ".ankiaddon") = Some is_package
    /\ (is_package = true <-> exists stem, arg argv 4 = stem ++ ".ankiaddon")
    /\ trace (run fuel os [] (main argv))
       = (before
            ++ Ev (CreateProcessA
                     (launch_command (arg argv 2) (arg argv 3)
                        (if is_package then Some (arg argv 4) else None))
                     false CREATE_NO_WINDOW) (created, pi)
            :: after)%list
    /\ existsb is_launch before = false
    /\ existsb is_cleanup_or_launch after = false
    /\ if is_package
       then existsb is_cleanup before = false
            /\ In (Ev (printf ("Installing addon from package " ++ arg argv 4
                                 ++ "..." ++ newline)) tt) before
            /\ launch_command (arg argv 2) (arg argv 3) (Some (arg argv 4))
               = snprintf command_size
                   (command_prefix (arg argv 2) (arg argv 3)
                      ++ " " ++ dquote ++ arg argv 4 ++ dquote)
       else (exists waited size deleting,
                before
                = (waited
                     ++ Ev (printf ("Deleting addon directory " ++ arg argv 4
                                      ++ "..." ++ newline)) tt
                     :: Ev (MultiByteToWideChar CP_UTF8 0 (arg argv 4) (-1) NULL 0) size
                     :: deleting)%list
                /\ existsb is_cleanup waited = false)
            /\ launch_command (arg argv 2) (arg argv 3) None
               = snprintf command_size (command_prefix (arg argv 2) (arg argv 3)).
Proof.
  intros Hfive Hpid Hcode.
  destruct (main_returned os argv Hfive Hpid fuel code Hcode)
    as (w & is_package & stage & created & pi & after
        & Htrace & Hexit & Hsuffix & Hquiet & _ & [Hstage Hshape] & Hafter).
  rewrite launch_split in Htrace.
  exists is_package. eexists _, created, pi, after.
  split; [exact Hsuffix|].
  split.
  { rewrite <- (ends_with_iff_suffix (arg argv 4) ".ankiaddon").
    change (Some ".ankiaddon") with (Some package_suffix). rewrite Hsuffix.
    split; congruence. }
  split; [exact Htrace|].
  split; [now apply before_launch_quiet|].
  split; [exact (after_launch_quiet _ _ _ Hafter)|].
  pose proof (existsb_none_weaken _ _ _ is_cleanup_kind Hquiet) as Hclean.
  destruct is_package.
  - subst stage. split; [|split].
    + rewrite existsb_app, Hclean. reflexivity.
    + apply in_or_app. right. cbn. auto.
    + unfold launch_command. now rewrite (package_not_empty _ Hsuffix).
  - destruct Hshape as (n & rest & -> & _). split; [|reflexivity].
    exists ((waiting_message (pid_of argv) :: w) ++ [gone_message (pid_of argv)])%list, n.
    eexists. split.
    + rewrite <- !app_assoc. cbn [app]. reflexivity.
    + rewrite existsb_app, Hclean. reflexivity.
Qed.

Lemma branch_selector_witness :
  exists (is_package : bool) before created pi after,
    ends_with (Some (arg package_argv 4)) (Some ".ankiaddon") = Some is_package
    /\ (is_package = true <-> exists stem, arg package_argv 4 = stem ++ ".ankiaddon")
    /\ trace (run 20 (scripted fair_weather) [] (main package_argv))
       = (before
            ++ Ev (CreateProcessA
                     (launch_command (arg package_argv 2) (arg package_argv 3)
                        (if is_package then Some (arg package_argv 4) else None))
                     false CREATE_NO_WINDOW) (created, pi)
            :: after)%list
    /\ existsb is_launch before = false
    /\ existsb is_cleanup_or_launch after = false
    /\ if is_package
       then existsb is_cleanup before = false
            /\ In (Ev (printf ("Installing addon from package " ++ arg package_argv 4
                                 ++ "..." ++ newline)) tt) before
            /\ launch_command (arg package_argv 2) (arg package_argv 3)
                 (Some (arg package_argv 4))
               = snprintf command_size
                   (command_prefix (arg package_argv 2) (arg package_argv 3)
                      ++ " " ++ dquote ++ arg package_argv 4 ++ dquote)
       else (exists waited size deleting,
                before
                = (waited
                     ++ Ev (printf ("Deleting addon directory " ++ arg package_argv 4
                                      ++ "..." ++ newline)) tt
                     :: Ev (MultiByteToWideChar CP_UTF8 0 (arg package_argv 4) (-1) NULL 0)
                          size
                     :: deleting)%list
                /\ existsb is_cleanup waited = false)
            /\ launch_command (arg package_argv 2) (arg package_argv 3) None
               = snprintf command_size
                   (command_prefix (arg package_argv 2) (arg package_argv 3)).
Proof.
  apply (branch_selector (scripted fair_weather) package_argv 20 0
           eq_refl ltac:(vm_compute; discriminate)).
  vm_compute. reflexivity.
Defined.

(** ** Delete with fallback *)

(** C1.  [send_to_trash] always returns.  When the recycle bin reports
    success the result is TRUE and neither permanent delete is called.  When
    it reports failure [DeleteFileA] is called, [RemoveDirectoryA] after it
    only if it failed, and the result is TRUE exactly when one of the two
    succeeded.  And in a run of [main] that returned, if the recycle bin
    failed and no permanent delete succeeded, the warning was printed and
    [CreateProcessA] was called after it, not before. *)
Theorem delete_with_fallback (os : OS) :
  (forall (h : list event) (path : string) (fuel : nat),
      let o := run (8 + fuel) os h (send_to_trash path) in
      exists deleted,
        result o = Some deleted
        /\ (existsb recycle_succeeded (trace o) = true ->
            deleted = true /\ existsb is_fallback (trace o) = false)
        /\ (existsb recycle_failed (trace o) = true ->
            deleted = existsb fallback_succeeded (trace o)
            /\ exists before file after,
                 trace o = (before ++ Ev (DeleteFileA path) file :: after)%list
                 /\ existsb is_fallback before = false
                 /\ after = if file then [] else [Ev (RemoveDirectoryA path) deleted]))
  /\ (forall (argv : list string) (fuel : nat) (code : Z),
         List.length argv = 5%nat ->
         pid_of argv <> 0 ->
         result (run fuel os [] (main argv)) = Some code ->
         existsb recycle_failed (trace (run fuel os [] (main argv))) = true ->
         existsb fallback_succeeded (trace (run fuel os [] (main argv))) = false ->
         exists before after,
           trace (run fuel os [] (main argv))
           = (before
                ++ Ev (printf ("Warning: Failed to delete addon directory" ++ newline)) tt
                :: after)%list
           /\ existsb is_launch before = false
           /\ existsb is_launch after = true).
Proof.
  split; [apply send_to_trash_fallback|].
  intros argv fuel code Hfive Hpid Hcode.
  destruct (main_returned os argv Hfive Hpid fuel code Hcode)
    as (w & is_package & stage & created & pi & after
        & Htrace & Hexit & Hsuffix & Hquiet & _ & [Hstage Hshape] & Hafter).
  rewrite Htrace, !existsb_pieces.
  rewrite (existsb_none_weaken _ _ _ recycle_failed_kind Hquiet).
  rewrite (existsb_none_weaken _ _ _ recycle_failed_kind (after_launch_quiet _ _ _ Hafter)).
  cbn [orb gone_message recycle_failed fallback_succeeded launch_calls existsb].
  rewrite !orb_false_r. intros Hfailed Hnone.
  apply orb_false_iff in Hnone as [_ Hnone].
  apply orb_false_iff in Hnone as [Hnone _].
  destruct is_package; [subst stage; discriminate Hfailed|].
  destruct Hshape as (n & rest & Hstage' & Hwarn).
  destruct (Hwarn Hfailed Hnone) as [deleting Hdeleting].
  exists ((waiting_message (pid_of argv) :: w) ++ gone_message (pid_of argv) :: deleting)%list.
  eexists. split; [|split].
  - rewrite Hdeleting, <- !app_assoc. cbn [app]. reflexivity.
  - rewrite Hdeleting, existsb_app in Hstage. apply orb_false_iff in Hstage as [Hstage _].
    rewrite existsb_app, (existsb_none_weaken _ _ _ is_launch_kind Hquiet).
    cbn [existsb gone_message is_launch orb]. exact Hstage.
  - reflexivity.
Qed.

Lemma delete_with_fallback_witness :
  exists before after,
    trace (run 20 (scripted nothing_deletes) [] (main directory_argv))
    = (before
         ++ Ev (printf ("Warning: Failed to delete addon directory" ++ newline)) tt
         :: after)%list
    /\ existsb is_launch before = false
    /\ existsb is_launch after = true.
Proof.
  apply (proj2 (delete_with_fallback (scripted nothing_deletes)) directory_argv 20%nat 0
           eq_refl ltac:(vm_compute; discriminate)).
  - vm_compute. reflexivity.
  - vm_compute. reflexivity.
  - vm_compute. reflexivity.
Defined.

(** ** Usage errors *)

Lemma digits_value_no_digit (s : string) :
  match s with
  | String c _ => isdigit c = false
  | EmptyString => True
  end ->
  digits_value 0 s = 0.
Proof. destruct s as [|c s]; cbn; [reflexivity|]. now intros ->. Qed.

Lemma atol_no_number (s : string) : starts_with_number s = false -> atol s = 0.
Proof.
  unfold starts_with_number, atol.
  destruct (skip_space s) as [|c t]; [reflexivity|].
  destruct c as [[] [] [] [] [] [] [] []]; intros H;
    try (rewrite (digits_value_no_digit (String _ t) H); reflexivity);
    try discriminate H.
  all: destruct t as [|c' t']; cbn in *; try reflexivity; now rewrite H.
Qed.

Lemma pid_of_no_number (argv : list string) :
  arg argv 1 = "0" \/ starts_with_number (arg argv 1) = false -> pid_of argv = 0.
Proof.
  unfold pid_of. intros [-> | H]; [reflexivity|].
  now rewrite (atol_no_number _ H).
Qed.

Lemma run_print_usage (os : OS) (h : list event) (program_name : cstr) (fuel : nat) :
  run (7 + fuel) os h (print_usage program_name)
  = Outcome (usage_lines program_name) fuel (Some tt).
Proof. unfold print_usage, usage_lines. run_all. reflexivity. Qed.

(** C3, as amended.  With an argument count other than five [main] prints
    the usage text and returns 1.  With five arguments and a pid argument for
    which [atol] gives 0, as it does for [0] and for any text that does not
    begin, after white space and one sign, with a digit, it prints
    [Error: Invalid PID] and returns 1.  Either way it calls nothing but
    [printf]. *)
Theorem usage_errors (os : OS) (argv : list string) (fuel : nat) :
  (List.length argv <> 5%nat ->
   run (7 + fuel) os [] (main argv)
   = Outcome (usage_lines (nth_error argv 0)) fuel (Some 1))
  /\ (List.length argv = 5%nat ->
      pid_of argv = 0 ->
      run (1 + fuel) os [] (main argv)
      = Outcome [Ev (printf ("Error: Invalid PID" ++ newline)) tt] fuel (Some 1))
  /\ (arg argv 1 = "0" \/ starts_with_number (arg argv 1) = false -> pid_of argv = 0)
  /\ forallb is_printf (usage_lines (nth_error argv 0)) = true.
Proof.
  split; [|split; [|split]].
  - intros Hcount. rewrite main_parts.
    destruct (Z.eqb_spec (Z.of_nat (List.length argv)) 5) as [E|_]; [lia|].
    cbn [negb]. rewrite run_bind, run_print_usage, and_then_Some, run_Ret.
    cbn [trace fuel_left result]. now rewrite app_nil_r.
  - intros Hcount Hpid. rewrite main_parts, Hcount, Hpid.
    cbn [Z.of_nat Pos.of_succ_nat Pos.succ Z.eqb Pos.eqb negb Nat.add].
    run_all. reflexivity.
  - apply pid_of_no_number.
  - reflexivity.
Qed.

Lemma usage_errors_witness :
  run (1 + 0) (scripted fair_weather) []
    (main ["restart_anki.exe"; "abc"; "C:\App\app.exe"; "C:\Data"; "C:\Data\addons\myaddon"])
  = Outcome [Ev (printf ("Error: Invalid PID" ++ newline)) tt] 0 (Some 1).
Proof.
  apply (proj1 (proj2 (usage_errors (scripted fair_weather)
                         ["restart_anki.exe"; "abc"; "C:\App\app.exe"; "C:\Data";
                          "C:\Data\addons\myaddon"] 0))).
  - reflexivity.
  - vm_compute. reflexivity.
Defined.

(** C3 as the specification words it fails: [12abc] is not a decimal integer,
    yet [atol] reads 12 from it, and [main] goes on to look for process 12. *)
Lemma pid_followed_by_text_is_accepted :
  ~ (forall (os : OS) (argv : list string),
        List.length argv <> 5%nat \/ arg argv 1 = "0"
        \/ decimal_integer (arg argv 1) = false ->
        (exists fuel, result (run fuel os [] (main argv)) = Some 1)
        /\ forall fuel, forallb is_printf (trace (run fuel os [] (main argv))) = true).
Proof.
  intros H.
  destruct (H (scripted fair_weather) trailing_text_argv) as [_ Hquiet].
  - right. right. reflexivity.
  - specialize (Hquiet 2%nat). vm_compute in Hquiet. discriminate Hquiet.
Qed.

(** ** Waiting *)

(** C5, as amended.  When the first check of the loop does not find the
    process alive, because no handle could be opened, or the exit code could
    not be read, or it is not [STILL_ACTIVE], the wait is over after that one
    check: at most three calls, none of them [Sleep]. *)
Theorem wait_returns_at_once (os : OS) (h : list event) (pid : DWORD) (fuel : nat) :
  let open := OpenProcess PROCESS_QUERY_INFORMATION false pid in
  let hp := os h _ open in
  let answer := os (h ++ [Ev open hp])%list _ (GetExitCodeProcess hp) in
  hp = NULL \/ fst answer = false \/ snd answer <> STILL_ACTIVE ->
  let o := run (3 + fuel) os h (wait_for_exit pid) in
  result o = Some tt
  /\ existsb is_sleep (trace o) = false
  /\ (fuel <= fuel_left o)%nat
  /\ gone_check pid (trace o).
Proof.
  cbv zeta. intros Hgone.
  assert (Hreturned : result (run (3 + fuel) os h (wait_for_exit pid)) = Some tt
                      /\ existsb is_sleep (trace (run (3 + fuel) os h (wait_for_exit pid)))
                         = false
                      /\ (fuel <= fuel_left (run (3 + fuel) os h (wait_for_exit pid)))%nat).
  { unfold wait_for_exit. rewrite run_while, run_is_process_running.
    destruct (os h _ (OpenProcess PROCESS_QUERY_INFORMATION false pid) =? NULL) eqn:Hnull.
    - rewrite and_then_Some. cbn. repeat split; lia.
    - apply Z.eqb_neq in Hnull.
      destruct Hgone as [Hgone | Hgone]; [contradiction|].
      destruct (os (h ++ _)%list _ (GetExitCodeProcess _)) as [ok code].
      cbn [fst snd] in Hgone.
      assert (Hverdict : (ok && (code =? STILL_ACTIVE))%bool = false).
      { destruct Hgone as [-> | Hcode]; [reflexivity|].
        apply Z.eqb_neq in Hcode. rewrite Hcode. apply andb_false_r. }
      cbn [fst snd]. rewrite Hverdict, and_then_Some. cbn. repeat split; lia. }
  destruct Hreturned as (Hresult & Hsleep & Hfuel).
  repeat split; try assumption.
  destruct (wait_returned_shape os pid _ h Hresult) as (rounds & last & Htrace & Hrounds & Hlast).
  destruct Hrounds as [|round rounds (hp & closed & _ & ->) _].
  - now rewrite Htrace.
  - rewrite Htrace in Hsleep. cbn in Hsleep. discriminate Hsleep.
Qed.

Lemma wait_returns_at_once_witness :
  let o := run (3 + 0) (scripted fair_weather) [] (wait_for_exit 1234) in
  result o = Some tt
  /\ existsb is_sleep (trace o) = false
  /\ (0 <= fuel_left o)%nat
  /\ gone_check 1234 (trace o).
Proof.
  apply (wait_returns_at_once (scripted fair_weather) [] 1234 0).
  left. reflexivity.
Defined.

(** C5 as the specification words it, for every pid for which no process is
    running, fails: a process that has exited with exit code 259 and can
    still be opened is not running, yet every check reads [STILL_ACTIVE] from
    it and the wait never returns. *)
Lemma exit_code_259_keeps_waiting :
  ~ (forall (table : DWORD -> process) (pid : DWORD),
        table pid <> running ->
        exists fuel,
          result (run fuel (windows table) [] (wait_for_exit pid)) = Some tt
          /\ existsb is_sleep (trace (run fuel (windows table) [] (wait_for_exit pid)))
             = false).
Proof.
  intros H.
  destruct (H (fun _ => exited 259) 1234 ltac:(discriminate)) as (fuel & Hresult & _).
  rewrite (wait_never_returns (windows (fun _ => exited 259)) 1234) in Hresult;
    [discriminate|].
  split; intros; cbn; [discriminate | reflexivity].
Qed.

(** C6.  A wait that returned is a row of rounds, each a check that found
    the process alive followed by the message and [Sleep(500)], closed by one
    check that did not find it alive.  Against a system that always finds the
    process alive the wait never returns, whatever the number of steps.  And
    [main], called with five arguments and a pid that is not 0, makes no call
    of the delete or the launch before the check that closes the wait, and
    none at all, without ever returning, when the process is always found
    alive. *)
Theorem wait_until_gone (os : OS) (pid : DWORD) :
  (forall h fuel,
      result (run fuel os h (wait_for_exit pid)) = Some tt ->
      exists rounds last,
        trace (run fuel os h (wait_for_exit pid)) = (List.concat rounds ++ last)%list
        /\ Forall (running_round pid) rounds
        /\ gone_check pid last)
  /\ (always_running os pid ->
      forall h fuel, result (run fuel os h (wait_for_exit pid)) = None)
  /\ (forall argv fuel,
         List.length argv = 5%nat ->
         pid_of argv = pid ->
         pid <> 0 ->
         (existsb is_cleanup_or_launch (trace (run fuel os [] (main argv))) = true ->
          exists rounds last rest,
            trace (run fuel os [] (main argv))
            = ((waiting_message pid :: List.concat rounds ++ last) ++ rest)%list
            /\ Forall (running_round pid) rounds
            /\ gone_check pid last
            /\ existsb is_cleanup_or_launch (waiting_message pid :: List.concat rounds ++ last)
               = false)
         /\ (always_running os pid ->
             result (run fuel os [] (main argv)) = None
             /\ existsb is_cleanup_or_launch (trace (run fuel os [] (main argv))) = false)).
Proof.
  split; [|split].
  - intros h fuel. apply wait_returned_shape.
  - intros Halive h fuel. now apply wait_never_returns.
  - intros argv fuel Hfive <- Hpid. split.
    + apply (main_waits_first os argv Hfive Hpid).
    + apply (main_never_returns os argv Hfive Hpid).
Qed.

Lemma always_running_stubborn (pid : DWORD) : always_running stubborn pid.
Proof. split; intros; cbn; [discriminate | reflexivity]. Qed.

Lemma wait_until_gone_witness :
  (exists rounds last,
      trace (run 20 (scripted two_rounds) [] (wait_for_exit 1234))
      = (List.concat rounds ++ last)%list
      /\ Forall (running_round 1234) rounds
      /\ gone_check 1234 last)
  /\ result (run 20 stubborn [] (main directory_argv)) = None.
Proof.
  split.
  - apply (proj1 (wait_until_gone (scripted two_rounds) 1234) [] 20%nat).
    vm_compute. reflexivity.
  - apply (proj2 (proj2 (wait_until_gone stubborn 1234)) directory_argv 20%nat).
    + reflexivity.
    + vm_compute. reflexivity.
    + discriminate.
    + apply always_running_stubborn.
Defined.

(** ** Sample runs *)

(** Pid 1234 is not running and the recycle bin works: the directory goes to
    the recycle bin, Anki is started with [-b C:\Data], the exit status is 0. *)
Example directory_run :
  run 20 (scripted fair_weather) [] (main directory_argv)
  = Outcome
      [Ev (printf ("Waiting for PID 1234 to exit..." ++ newline)) tt;
       Ev (OpenProcess PROCESS_QUERY_INFORMATION false 1234) NULL;
       Ev (printf ("PID 1234 is no longer running, proceeding to launch Anki." ++ newline)) tt;
       Ev (printf ("Deleting addon directory C:\Data\addons\myaddon..." ++ newline)) tt;
       Ev (MultiByteToWideChar CP_UTF8 0 "C:\Data\addons\myaddon" (-1) NULL 0) (23, []);
       Ev (malloc 46) 4096;
       Ev (MultiByteToWideChar CP_UTF8 0 "C:\Data\addons\myaddon" (-1) 4096 23) (23, []);
       Ev (SHFileOperationW FO_DELETE 4096 84) 0;
       Ev (free 4096) tt;
       Ev (printf ("Executing: cmd /c start /B " ++ dquote ++ dquote ++ " " ++ dquote
                     ++ "C:\App\app.exe" ++ dquote ++ " -b " ++ dquote ++ "C:\Data"
                     ++ dquote ++ newline)) tt;
       Ev (CreateProcessA
             ("cmd /c start /B " ++ dquote ++ dquote ++ " " ++ dquote
                ++ "C:\App\app.exe" ++ dquote ++ " -b " ++ dquote ++ "C:\Data" ++ dquote)
             false CREATE_NO_WINDOW)
          (true, {| hProcess := 12; hThread := 16 |});
       Ev (CloseHandle 12) true;
       Ev (CloseHandle 16) true;
       Ev (printf ("Anki launched successfully" ++ newline)) tt]
      6 (Some 0).
Proof. vm_compute. reflexivity. Qed.

(** A package is not touched; its path is the last argument of the command. *)
Example package_run :
  run 20 (scripted fair_weather) [] (main package_argv)
  = Outcome
      [Ev (printf ("Waiting for PID 1234 to exit..." ++ newline)) tt;
       Ev (OpenProcess PROCESS_QUERY_INFORMATION false 1234) NULL;
       Ev (printf ("PID 1234 is no longer running, proceeding to launch Anki." ++ newline)) tt;
       Ev (printf ("Installing addon from package C:\Data\my.ankiaddon..." ++ newline)) tt;
       Ev (printf ("Executing: cmd /c start /B " ++ dquote ++ dquote ++ " " ++ dquote
                     ++ "C:\App\app.exe" ++ dquote ++ " -b " ++ dquote ++ "C:\Data"
                     ++ dquote ++ " " ++ dquote ++ "C:\Data\my.ankiaddon" ++ dquote
                     ++ newline)) tt;
       Ev (CreateProcessA
             ("cmd /c start /B " ++ dquote ++ dquote ++ " " ++ dquote
                ++ "C:\App\app.exe" ++ dquote ++ " -b " ++ dquote ++ "C:\Data" ++ dquote
                ++ " " ++ dquote ++ "C:\Data\my.ankiaddon" ++ dquote)
             false CREATE_NO_WINDOW)
          (true, {| hProcess := 12; hThread := 16 |});
       Ev (CloseHandle 12) true;
       Ev (CloseHandle 16) true;
       Ev (printf ("Anki launched successfully" ++ newline)) tt]
      11 (Some 0).
Proof. vm_compute. reflexivity. Qed.

(** A pid of 0 ends the program at once. *)
Example zero_pid_run :
  run 20 (scripted fair_weather) []
    (main ["restart_anki.exe"; "0"; "C:\App\app.exe"; "C:\Data"; "C:\Data\addons\myaddon"])
  = Outcome [Ev (printf ("Error: Invalid PID" ++ newline)) tt] 19 (Some 1).
Proof. vm_compute. reflexivity. Qed.

(** Two rounds of waiting take two pauses. *)
Example two_rounds_run :
  List.length
    (filter is_sleep (trace (run 40 (scripted two_rounds) [] (main directory_argv))))
  = 2%nat
  /\ result (run 40 (scripted two_rounds) [] (main directory_argv)) = Some 0.
Proof. split; vm_compute; reflexivity. Qed.

(** What [atol] makes of some pid arguments. *)
Example atol_samples :
  atol "1234" = 1234 /\ atol "12abc" = 12 /\ atol "  -7" = -7 /\ atol "abc" = 0
  /\ atol "" = 0 /\ atol "+0" = 0 /\ atol "99999999999" = LONG_MAX.
Proof. repeat split; reflexivity. Qed.

(** The suffix is compared letter for letter. *)
Example ends_with_samples :
  ends_with (Some "my.ANKIADDON") (Some ".ankiaddon") = Some false
  /\ ends_with (Some ".ankiaddon") (Some ".ankiaddon") = Some true
  /\ ends_with (Some "addon") (Some ".ankiaddon") = Some false.
Proof. repeat split; reflexivity. Qed.

(** ** More on the suffix test *)

Lemma append_assoc (a b c : string) : (a ++ b) ++ c = a ++ b ++ c.
Proof. induction a as [|x a IH]; cbn; [reflexivity | now rewrite IH]. Qed.

Lemma length_zero (a : string) : String.length a = 0%nat -> a = "".
Proof. now destruct a. Qed.

(** X1.  Whatever the two strings, [ends_with] answers TRUE exactly when the
    first is some text followed by the second, and FALSE exactly when it is
    not; it compares bytes, so a suffix longer than the string is never
    found. *)
Theorem ends_with_is_suffix (str suffix : string) :
  (ends_with (Some str) (Some suffix) = Some true <-> exists stem, str = stem ++ suffix)
  /\ (ends_with (Some str) (Some suffix) = Some false
      <-> ~ exists stem, str = stem ++ suffix)
  /\ (ends_with (Some str) (Some suffix) = Some true ->
      (String.length suffix <= String.length str)%nat).
Proof.
  pose proof (ends_with_iff_suffix str suffix) as Hiff.
  split; [exact Hiff|]. split.
  - destruct (ends_with_total (Some str) (Some suffix)) as [[|] Hb]; rewrite Hb in *.
    + split; [discriminate|]. intros Hno. destruct Hno. now apply Hiff.
    + split; [|reflexivity]. intros _ H. apply Hiff in H. discriminate.
  - intros H. apply Hiff in H as [stem ->]. rewrite length_append. lia.
Qed.

Lemma ends_with_is_suffix_witness :
  (String.length ".ankiaddon" <= String.length "C:\Data\my.ankiaddon")%nat.
Proof.
  apply (proj2 (proj2 (ends_with_is_suffix "C:\Data\my.ankiaddon" ".ankiaddon"))).
  reflexivity.
Defined.

(** X2.  On strings [ends_with] is a partial order: every string ends with
    itself, two strings that end with each other are equal, and a suffix of a
    suffix is a suffix. *)
Theorem ends_with_order :
  (forall a, ends_with (Some a) (Some a) = Some true)
  /\ (forall a b,
         ends_with (Some a) (Some b) = Some true ->
         ends_with (Some b) (Some a) = Some true ->
         a = b)
  /\ (forall a b c,
         ends_with (Some a) (Some b) = Some true ->
         ends_with (Some b) (Some c) = Some true ->
         ends_with (Some a) (Some c) = Some true).
Proof.
  repeat apply conj.
  - intros a. apply ends_with_iff_suffix. now exists "".
  - intros a b Hab Hba.
    apply ends_with_iff_suffix in Hab as [p Hp], Hba as [q Hq].
    assert (Hlen : String.length p = 0%nat).
    { apply (f_equal String.length) in Hp, Hq. rewrite length_append in Hp, Hq. lia. }
    now rewrite (length_zero p Hlen) in Hp.
  - intros a b c Hab Hbc.
    apply ends_with_iff_suffix in Hab as [p ->], Hbc as [q ->].
    apply ends_with_iff_suffix. exists (p ++ q). now rewrite append_assoc.
Qed.

Lemma ends_with_order_witness :
  ends_with (Some "C:\Data\my.ankiaddon") (Some "addon") = Some true.
Proof.
  apply (proj2 (proj2 ends_with_order) "C:\Data\my.ankiaddon" ".ankiaddon" "addon");
    reflexivity.
Defined.

(** ** More on the delete *)

(** Turn the tests a run has passed into equations and disequations. *)
Ltac read_tests :=
  repeat match goal with
    | H : negb _ = true |- _ => apply negb_true_iff in H
    | H : negb _ = false |- _ => apply negb_false_iff in H
    | H : (_ =? _) = true |- _ => apply Z.eqb_eq in H; subst
    | H : (_ =? _) = false |- _ => apply Z.eqb_neq in H
    end.

Lemma send_to_trash_cases (os : OS) (h : list event) (path : string) (fuel : nat) :
  exists tr n deleted,
    run (8 + fuel) os h (send_to_trash path) = Outcome tr n (Some deleted)
    /\ (fuel <= n)%nat
    /\ trash_trace path tr deleted.
Proof.
  unfold send_to_trash. run_all.
  all: eexists _, _, _; split; [reflexivity|]; split; [lia|].
  all: read_tests.
  all: first [ apply trash_no_length
             | now apply trash_no_memory
             | now eapply trash_recycled
             | now eapply trash_file_deleted
             | now eapply trash_directory_removed ].
Qed.

(** X3.  When [send_to_trash] does not get as far as the recycle bin,
    because the length of the converted path came back 0 or no memory was
    given, it returns FALSE and has attempted no delete of any kind: it made
    the one conversion call, or that and the failed allocation, and nothing
    else. *)
Theorem send_to_trash_gives_up (os : OS) (h : list event) (path : string) (fuel : nat) :
  let o := run (8 + fuel) os h (send_to_trash path) in
  existsb is_recycle (trace o) = false ->
  result o = Some false
  /\ existsb is_fallback (trace o) = false
  /\ ((exists written,
          trace o = [Ev (MultiByteToWideChar CP_UTF8 0 path (-1) NULL 0) (0, written)])
      \/ exists len written,
          len <> 0
          /\ trace o
             = [Ev (MultiByteToWideChar CP_UTF8 0 path (-1) NULL 0) (len, written);
                Ev (malloc (to_size_t (len * sizeof_wchar_t))) NULL]).
Proof.
  cbv zeta.
  destruct (send_to_trash_cases os h path fuel) as (tr & n & deleted & -> & _ & Hcases).
  cbn [trace result].
  destruct Hcases; cbn; intros Hnone; try discriminate Hnone.
  - repeat split. left. eauto.
  - repeat split. right. eauto.
Qed.

Lemma send_to_trash_gives_up_witness :
  let o := run (8 + 0) (scripted {| alive := 0; wide_length := 0; memory := 4096;
                                    recycle := 0; delete_file := true;
                                    remove_directory := true; create_process := true |})
             [] (send_to_trash "C:\Data\addons\myaddon") in
  result o = Some false
  /\ existsb is_fallback (trace o) = false
  /\ ((exists written,
          trace o
          = [Ev (MultiByteToWideChar CP_UTF8 0 "C:\Data\addons\myaddon" (-1) NULL 0)
               (0, written)])
      \/ exists len written,
          len <> 0
          /\ trace o
             = [Ev (MultiByteToWideChar CP_UTF8 0 "C:\Data\addons\myaddon" (-1) NULL 0)
                  (len, written);
                Ev (malloc (to_size_t (len * sizeof_wchar_t))) NULL]).
Proof.
  apply (send_to_trash_gives_up
           (scripted {| alive := 0; wide_length := 0; memory := 4096;
                        recycle := 0; delete_file := true;
                        remove_directory := true; create_process := true |})
           [] "C:\Data\addons\myaddon" 0).
  vm_compute. reflexivity.
Defined.

Lemma room_of_block (len : Z) :
  0 < len <= INT_MAX -> room (to_size_t (len * sizeof_wchar_t)) = len.
Proof.
  unfold room, to_size_t, sizeof_wchar_t, INT_MAX. intros Hlen.
  rewrite Z.mod_small by lia. apply Z.div_mul. discriminate.
Qed.

Lemma wide_string_one_terminator (units : list Z) :
  wide_string units = true -> double_terminated units = false.
Proof.
  induction units as [|a rest IH]; [discriminate|].
  destruct rest as [|b rest']; [reflexivity|].
  change (wide_string (a :: b :: rest'))
    with (negb (a =? 0) && wide_string (b :: rest'))%bool.
  change (double_terminated (a :: b :: rest'))
    with ((a =? 0) && (b =? 0) || double_terminated (b :: rest'))%bool.
  intros H. apply andb_true_iff in H as [Ha Hrest].
  apply negb_true_iff in Ha. now rewrite Ha, (IH Hrest).
Qed.

(** X4.  Whatever the system answers, every path [send_to_trash] passes to
    [MultiByteToWideChar], [DeleteFileA] or [RemoveDirectoryA] is the one it
    was given; it calls [SHFileOperationW] at most once, for a delete that
    can be undone; and it calls [DeleteFileA] or [RemoveDirectoryA] exactly
    when the recycle bin reported a failure.  What it hands the recycle bin
    is the block [malloc] gave it, sized for the [len] units the first
    conversion counted and filled by the second conversion of the path just
    before: when that conversion wrote the path as one wide string of [len]
    units, the block is full to its last unit and holds no two terminators in
    a row, so the list of names [pFrom] must point to is not closed inside
    the block. *)
Theorem send_to_trash_discipline (os : OS) (h : list event) (path : string) (fuel : nat) :
  let tr := trace (run (8 + fuel) os h (send_to_trash path)) in
  forallb (names_only path) tr = true
  /\ (List.length (filter is_recycle tr) <= 1)%nat
  /\ forallb
       (fun ev =>
          match ev with
          | Ev (SHFileOperationW wFunc _ fFlags) _ =>
              (wFunc =? FO_DELETE) && Z.testbit fFlags 6
          | _ => true
          end) tr = true
  /\ existsb is_fallback tr = existsb recycle_failed tr
  /\ (existsb is_recycle tr = true ->
      exists len wpath written wchars count result rest,
        tr = ([Ev (MultiByteToWideChar CP_UTF8 0 path (-1) NULL 0) (len, written);
               Ev (malloc (to_size_t (len * sizeof_wchar_t))) wpath;
               Ev (MultiByteToWideChar CP_UTF8 0 path (-1) wpath len) (count, wchars);
               Ev (SHFileOperationW FO_DELETE wpath
                     (Z.lor (Z.lor FOF_ALLOWUNDO FOF_NOCONFIRMATION) FOF_SILENT)) result;
               Ev (free wpath) tt] ++ rest)%list
        /\ len <> 0
        /\ wpath <> NULL
        /\ (0 < len <= INT_MAX ->
            wide_string wchars = true ->
            Z.of_nat (List.length wchars) = len ->
            Z.of_nat (List.length wchars) = room (to_size_t (len * sizeof_wchar_t))
            /\ double_terminated wchars = false)).
Proof.
  cbv zeta.
  destruct (send_to_trash_cases os h path fuel) as (tr & n & deleted & -> & _ & Hcases).
  cbn [trace].
  assert (Hblock : forall len wchars,
             0 < len <= INT_MAX ->
             wide_string wchars = true ->
             Z.of_nat (List.length wchars) = len ->
             Z.of_nat (List.length wchars) = room (to_size_t (len * sizeof_wchar_t))
             /\ double_terminated wchars = false).
  { intros len wchars Hlen Hwide Hcount.
    rewrite (room_of_block len Hlen). split; [exact Hcount|].
    now apply wide_string_one_terminator. }
  split; [|split; [|split; [|split]]].
  - destruct Hcases; cbn; rewrite ?String.eqb_refl; reflexivity.
  - destruct Hcases; cbn; lia.
  - destruct Hcases; reflexivity.
  - destruct Hcases; cbn; try reflexivity;
      repeat match goal with
        | H : ?r <> 0 |- context [?r =? 0] => rewrite (proj2 (Z.eqb_neq r 0) H)
        end; reflexivity.
  - destruct Hcases; cbn [existsb is_recycle orb]; intros Hcalled;
      try discriminate Hcalled.
    + exists len, wpath, written, wchars, count, 0, [].
      rewrite app_nil_r. repeat (split; [auto; fail|]). apply Hblock.
    + eexists len, wpath, written, wchars, count, result0, _.
      split; [reflexivity|]. repeat (split; [auto; fail|]). apply Hblock.
    + eexists len, wpath, written, wchars, count, result0, _.
      split; [reflexivity|]. repeat (split; [auto; fail|]). apply Hblock.
Qed.

Lemma send_to_trash_discipline_witness :
  let tr := trace (run (8 + 0) converting [] (send_to_trash "C:\Data\addons\myaddon")) in
  exists len wpath written wchars count result rest,
    tr = ([Ev (MultiByteToWideChar CP_UTF8 0 "C:\Data\addons\myaddon" (-1) NULL 0)
             (len, written);
           Ev (malloc (to_size_t (len * sizeof_wchar_t))) wpath;
           Ev (MultiByteToWideChar CP_UTF8 0 "C:\Data\addons\myaddon" (-1) wpath len)
             (count, wchars);
           Ev (SHFileOperationW FO_DELETE wpath
                 (Z.lor (Z.lor FOF_ALLOWUNDO FOF_NOCONFIRMATION) FOF_SILENT)) result;
           Ev (free wpath) tt] ++ rest)%list
    /\ len <> 0
    /\ wpath <> NULL
    /\ (0 < len <= INT_MAX ->
        wide_string wchars = true ->
        Z.of_nat (List.length wchars) = len ->
        Z.of_nat (List.length wchars) = room (to_size_t (len * sizeof_wchar_t))
        /\ double_terminated wchars = false).
Proof.
  apply (proj2 (proj2 (proj2 (proj2
           (send_to_trash_discipline converting [] "C:\Data\addons\myaddon" 0))))).
  vm_compute. reflexivity.
Defined.

(** The add-on directory of the sample run, as the recycle bin finds it: 23
    units in a block of 46 bytes, the last of them the only terminator. *)
Example recycled_block_sample :
  trace (run 8 converting [] (send_to_trash "C:\Data\addons\myaddon"))
  = [Ev (MultiByteToWideChar CP_UTF8 0 "C:\Data\addons\myaddon" (-1) NULL 0) (23, []);
     Ev (malloc 46) 4096;
     Ev (MultiByteToWideChar CP_UTF8 0 "C:\Data\addons\myaddon" (-1) 4096 23)
       (23, wide "C:\Data\addons\myaddon");
     Ev (SHFileOperationW FO_DELETE 4096 84) 0;
     Ev (free 4096) tt]
  /\ wide_string (wide "C:\Data\addons\myaddon") = true
  /\ room 46 = Z.of_nat (List.length (wide "C:\Data\addons\myaddon"))
  /\ double_terminated (wide "C:\Data\addons\myaddon") = false.
Proof. repeat split; vm_compute; reflexivity. Qed.

(** X5.  Whatever the system answers, [send_to_trash] frees exactly the
    buffer it was given, once, and frees nothing when it was given none; and
    by the time it tries a permanent delete the buffer is already freed. *)
Theorem send_to_trash_frees_its_buffer (os : OS) (h : list event) (path : string)
    (fuel : nat) :
  let tr := trace (run (8 + fuel) os h (send_to_trash path)) in
  flat_map freed tr = flat_map allocated tr
  /\ (List.length (flat_map allocated tr) <= 1)%nat
  /\ flat_map freed (upto is_fallback tr) = flat_map allocated (upto is_fallback tr).
Proof.
  cbv zeta.
  destruct (send_to_trash_cases os h path fuel) as (tr & n & deleted & -> & _ & Hcases).
  cbn [trace].
  destruct Hcases; cbn;
    repeat match goal with
      | H : ?p <> NULL |- context [?p =? NULL] => rewrite (proj2 (Z.eqb_neq p NULL) H)
      end; repeat split; cbn; lia.
Qed.

(** ** More on the wait *)

Section WaitRounds.

Variable os : OS.
Variable pid : DWORD.

Lemma pauses_app (a b : list event) : pauses (a ++ b) = (pauses a + pauses b)%nat.
Proof. unfold pauses. now rewrite filter_app, length_app. Qed.

(** A check that finds the process gone ends the wait. *)
Lemma run_wait_gone (h : list event) (fuel : nat) :
  check_finds_gone os pid h ->
  exists d n,
    run (3 + fuel) os h (wait_for_exit pid) = Outcome d n (Some tt)
    /\ (fuel <= n)%nat
    /\ pauses d = 0%nat
    /\ gone_check pid d.
Proof.
  unfold check_finds_gone. cbv zeta. intros Hgone.
  unfold wait_for_exit. rewrite run_while, run_is_process_running.
  destruct (os h _ (OpenProcess PROCESS_QUERY_INFORMATION false pid) =? NULL) eqn:Hnull.
  - rewrite and_then_Some. cbn [trace fuel_left result]. rewrite app_nil_r.
    eexists _, _. split; [reflexivity|]. split; [lia|]. split; [reflexivity|].
    left. apply Z.eqb_eq in Hnull. now rewrite Hnull.
  - apply Z.eqb_neq in Hnull.
    destruct Hgone as [Hgone | Hgone]; [contradiction|].
    destruct (os (h ++ _)%list _ (GetExitCodeProcess _)) as [ok code].
    cbn [fst snd] in Hgone.
    assert (Hverdict : (ok && (code =? STILL_ACTIVE))%bool = false).
    { destruct Hgone as [-> | Hcode]; [reflexivity|].
      apply Z.eqb_neq in Hcode. rewrite Hcode. apply andb_false_r. }
    cbn [fst snd]. rewrite Hverdict, and_then_Some.
    cbn [trace fuel_left result]. rewrite app_nil_r.
    eexists _, _. split; [reflexivity|]. split; [lia|]. split; [reflexivity|].
    right. unfold ask. eexists _, ok, code, _. split; [exact Hnull|]. split; [|reflexivity].
    destruct Hgone as [-> | Hcode]; auto.
Qed.

(** A check that finds it alive costs one round, and the wait goes on. *)
Lemma run_wait_round (h : list event) (fuel : nat) :
  check_finds_alive os pid h ->
  exists d,
    run (6 + fuel) os h (wait_for_exit pid)
    = Outcome (d ++ trace (run fuel os (h ++ d) (wait_for_exit pid)))
        (fuel_left (run fuel os (h ++ d) (wait_for_exit pid)))
        (result (run fuel os (h ++ d) (wait_for_exit pid)))
    /\ pauses d = 1%nat
    /\ running_round pid d.
Proof.
  unfold check_finds_alive. cbv zeta. intros [Hnull Hquery].
  unfold wait_for_exit at 1. rewrite run_while.
  change (6 + fuel)%nat with (3 + (3 + fuel))%nat. rewrite run_is_process_running.
  apply Z.eqb_neq in Hnull. rewrite Hnull, Hquery. cbn [fst snd andb].
  rewrite Z.eqb_refl, and_then_Some.
  change (3 + fuel)%nat with (2 + S fuel)%nat. rewrite run_pause, and_then_Some.
  change (while (is_process_running pid) (pause pid)) with (wait_for_exit pid).
  cbn [trace fuel_left result].
  match goal with
  | |- context [run fuel os ((h ++ ?d1) ++ ?d2)%list _] => exists (d1 ++ d2)%list
  end.
  split; [|split].
  - rewrite <- !app_assoc. reflexivity.
  - reflexivity.
  - unfold ask. eexists _, _. split; [exact (proj1 (Z.eqb_neq _ _) Hnull)|]. reflexivity.
Qed.

End WaitRounds.

(** X6.  [is_process_running] answers TRUE exactly when a handle was opened
    and its exit code was read as [STILL_ACTIVE]; it makes at most three
    calls, and whenever it was given a handle it has closed that handle, and
    no other, by the time it returns. *)
Theorem is_process_running_verdict (os : OS) (h : list event) (pid : DWORD) (fuel : nat) :
  let o := run (3 + fuel) os h (is_process_running pid) in
  exists alive,
    result o = Some alive
    /\ (alive = true <-> check_finds_alive os pid h)
    /\ (alive = false <-> check_finds_gone os pid h)
    /\ flat_map closed (trace o) = flat_map opened (trace o)
    /\ (fuel <= fuel_left o)%nat.
Proof.
  cbv zeta. rewrite run_is_process_running.
  unfold check_finds_alive, check_finds_gone. cbv zeta.
  destruct (os h _ (OpenProcess PROCESS_QUERY_INFORMATION false pid) =? NULL) eqn:Hnull.
  - exists false. cbn [trace result fuel_left flat_map opened closed app].
    rewrite Hnull. apply Z.eqb_eq in Hnull.
    repeat split; try discriminate; try lia; auto;
      try (intros [Hopen _]; contradiction).
  - destruct (os (h ++ _)%list _ (GetExitCodeProcess _)) as [ok code] eqn:Hquery.
    eexists. cbn [trace result fuel_left flat_map opened closed app ask fst snd].
    rewrite Hnull. apply Z.eqb_neq in Hnull.
    split; [reflexivity|]. split; [|split; [|split; [reflexivity | lia]]].
    + rewrite andb_true_iff, Z.eqb_eq. split.
      * intros [-> ->]. now split.
      * intros [_ [= -> ->]]. now split.
    + rewrite andb_false_iff, Z.eqb_neq. split.
      * intros [-> | Hcode]; auto.
      * intros [Hopen | Hrest]; [contradiction | exact Hrest].
Qed.

Lemma scripted_finds_alive (a : script) (pid : DWORD) (h : list event) :
  (pauses h < a.(alive))%nat -> check_finds_alive (scripted a) pid h.
Proof.
  unfold check_finds_alive, pauses. cbn -[Nat.ltb]. intros Hlt.
  destruct (Nat.ltb_spec (List.length (filter is_sleep h)) a.(alive)); [|lia].
  split; [easy | reflexivity].
Qed.

Lemma scripted_finds_gone (a : script) (pid : DWORD) (h : list event) :
  pauses h = a.(alive) -> check_finds_gone (scripted a) pid h.
Proof.
  unfold check_finds_gone, pauses. cbn -[Nat.ltb]. intros Heq.
  destruct (Nat.ltb_spec (List.length (filter is_sleep h)) a.(alive)); [lia|].
  now left.
Qed.

(** X7.  The wait ends as soon as a check finds the process gone: if the
    checks find it alive as long as fewer than [n] pauses have been made and
    gone once [n] have been made, the wait returns after exactly the pauses
    still missing, six steps a round and at most three for the last check. *)
Theorem wait_ends_when_gone (os : OS) (pid : DWORD) (n : nat) :
  (forall h, (pauses h < n)%nat -> check_finds_alive os pid h) ->
  (forall h, pauses h = n -> check_finds_gone os pid h) ->
  forall h fuel,
    (pauses h <= n)%nat ->
    let rounds := (n - pauses h)%nat in
    let o := run (6 * rounds + 3 + fuel) os h (wait_for_exit pid) in
    result o = Some tt
    /\ pauses (trace o) = rounds
    /\ (fuel <= fuel_left o)%nat.
Proof.
  intros Halive Hgone h fuel Hle. cbv zeta.
  remember (n - pauses h)%nat as k eqn:Hk. revert h Hle Hk.
  induction k as [|k IH]; intros h Hle Hk.
  - destruct (run_wait_gone os pid h fuel (Hgone h ltac:(lia)))
      as (d & m & Hrun & Hfuel & Hpauses & _).
    cbn [Nat.mul Nat.add]. change (S (S (S fuel))) with (3 + fuel)%nat.
    rewrite Hrun. cbn [trace result fuel_left]. auto.
  - destruct (run_wait_round os pid h (6 * k + 3 + fuel) (Halive h ltac:(lia)))
      as (d & Hrun & Hpauses & _).
    replace (6 * S k + 3 + fuel)%nat with (6 + (6 * k + 3 + fuel))%nat by lia.
    rewrite Hrun. cbn [trace result fuel_left].
    assert (Hnext : pauses (h ++ d) = S (pauses h)) by (rewrite pauses_app; lia).
    destruct (IH (h ++ d)%list ltac:(lia) ltac:(lia)) as (Hresult & Hcount & Hfuel).
    rewrite pauses_app, Hcount, Hpauses. auto.
Qed.

Lemma wait_ends_when_gone_witness :
  let o := run (6 * (2 - pauses []) + 3 + 0) (scripted two_rounds) [] (wait_for_exit 1234) in
  result o = Some tt
  /\ pauses (trace o) = (2 - pauses [])%nat
  /\ (0 <= fuel_left o)%nat.
Proof.
  apply (wait_ends_when_gone (scripted two_rounds) 1234 2).
  - exact (scripted_finds_alive two_rounds 1234).
  - exact (scripted_finds_gone two_rounds 1234).
  - cbn. lia.
Defined.

(** ** More on the whole program *)

Section Cases.

Variable os : OS.

Lemma run_stage_cases (h : list event) (is_package : bool) (addon : string) (fuel : nat) :
  exists tr n,
    run (10 + fuel) os h (stage_or_delete is_package addon)
    = Outcome tr n (Some (if is_package then Some addon else None))
    /\ (fuel <= n)%nat
    /\ stage_shape is_package addon tr.
Proof.
  unfold stage_or_delete, stage_shape. destruct is_package; cbn [Nat.add].
  - rewrite run_call_bind, (unit_tt (os _ unit _)), run_Ret.
    unfold prepend; cbn [trace fuel_left result].
    eexists _, _. split; [reflexivity|]. split; [lia | reflexivity].
  - rewrite run_call_bind, (unit_tt (os _ unit _)), run_bind.
    match goal with
    | |- context [run _ os ?h' (send_to_trash _)] =>
        destruct (send_to_trash_cases os h' addon (1 + fuel))
          as (trash & n & deleted & Hrun & Hn & Hcases)
    end.
    cbn [Nat.add] in Hrun. rewrite Hrun, and_then_Some.
    destruct n as [|n]; [lia|].
    destruct deleted; cbn [negb].
    + rewrite run_bind, !run_Ret, and_then_Some, run_Ret.
      unfold prepend; cbn [trace fuel_left result]. rewrite !app_nil_r.
      eexists _, _. split; [reflexivity|]. split; [lia|].
      exists trash, true. split; [exact Hcases|]. now rewrite app_nil_r.
    + rewrite run_bind, run_call, and_then_Some, run_Ret, (unit_tt (os _ unit _)).
      unfold prepend; cbn [trace fuel_left result]. rewrite !app_nil_r.
      eexists _, _. split; [reflexivity|]. split; [lia|].
      exists trash, false. split; [exact Hcases | reflexivity].
Qed.

Lemma run_after_wait_cases (h : list event) (pid : DWORD)
    (anki_exe anki_base addon : string) (fuel : nat) :
  exists (is_package : bool) stage (created : bool) pi after n,
    ends_with (Some addon) (Some package_suffix) = Some is_package
    /\ run (16 + fuel) os h (after_wait pid anki_exe anki_base addon)
       = Outcome
           (gone_message pid
              :: stage
              ++ launch_calls
                   (launch_command anki_exe anki_base
                      (if is_package then Some addon else None)) created pi
              ++ after)
           n (Some (if created then 0 else 1))
    /\ (fuel <= n)%nat
    /\ stage_shape is_package addon stage
    /\ after_launch created pi after.
Proof.
  destruct (ends_with_total (Some addon) (Some package_suffix)) as [is_package Hsuffix].
  unfold after_wait. rewrite Hsuffix. cbn [Nat.add].
  rewrite run_call_bind, (unit_tt (os _ unit _)), run_bind.
  match goal with
  | |- context [run _ os ?h' (stage_or_delete _ _)] =>
      destruct (run_stage_cases h' is_package addon (5 + fuel))
        as (stage & n1 & Hstage & Hn1 & Hshape)
  end.
  cbn [Nat.add] in Hstage. rewrite Hstage, and_then_Some.
  match goal with
  | |- context [run n1 os ?h' (relaunch _ _ ?pkg)] =>
      destruct (run_relaunch os h' anki_exe anki_base pkg (n1 - 5))
        as (created & pi & after & n & Hlaunch & Hn & Hafter)
  end.
  replace (5 + (n1 - 5))%nat with n1 in Hlaunch by lia.
  rewrite Hlaunch. unfold prepend; cbn [trace fuel_left result].
  exists is_package, stage, created, pi, after, n.
  split; [reflexivity|]. split; [reflexivity|]. split; [lia|]. now split.
Qed.

Variable argv : list string.
Hypothesis five : List.length argv = 5%nat.
Hypothesis pid_ok : pid_of argv <> 0.

(** Every run of [main] that is over, with the delete spelled out. *)
Lemma main_returned_cases (fuel : nat) (code : Z) :
  result (run fuel os [] (main argv)) = Some code ->
  exists w (is_package : bool) stage (created : bool) pi after,
    trace (run fuel os [] (main argv))
    = ((waiting_message (pid_of argv) :: w)
         ++ gone_message (pid_of argv)
         :: stage
         ++ launch_calls
              (launch_command (arg argv 2) (arg argv 3)
                 (if is_package then Some (arg argv 4) else None)) created pi
         ++ after)%list
    /\ code = (if created then 0 else 1)
    /\ ends_with (Some (arg argv 4)) (Some package_suffix) = Some is_package
    /\ (exists rounds last,
           w = (List.concat rounds ++ last)%list
           /\ Forall (running_round (pid_of argv)) rounds
           /\ gone_check (pid_of argv) last)
    /\ stage_shape is_package (arg argv 4) stage
    /\ after_launch created pi after.
Proof.
  intros Hcode.
  destruct (main_completed os argv five pid_ok fuel code Hcode)
    as (w & n & Htrace & Hresult & _ & Hshape).
  cbv zeta in Htrace, Hresult.
  destruct (run_after_wait_cases (waiting_message (pid_of argv) :: w) (pid_of argv)
              (arg argv 2) (arg argv 3) (arg argv 4) n)
    as (is_package & stage & created & pi & after & n' & Hsuffix & Hrun & _ & Hstage & Hafter).
  rewrite Hrun in Htrace, Hresult. cbn [trace result] in Htrace, Hresult.
  exists w, is_package, stage, created, pi, after.
  repeat (split; [first [assumption | congruence] |]). assumption.
Qed.

End Cases.

(** *** What each part of a run contributes *)

Lemma flat_map_pieces {A} (f : event -> list A) (a s c z : list event) (g : event) :
  flat_map f (a ++ g :: s ++ c ++ z)
  = (flat_map f a ++ f g ++ flat_map f s ++ flat_map f c ++ flat_map f z)%list.
Proof. rewrite flat_map_app. cbn [flat_map]. now rewrite !flat_map_app. Qed.

Lemma forallb_pieces (p : event -> bool) (a s c z : list event) (g : event) :
  forallb p (a ++ g :: s ++ c ++ z)
  = (forallb p a && (p g && (forallb p s && (forallb p c && forallb p z))))%bool.
Proof. rewrite forallb_app. cbn [forallb]. now rewrite !forallb_app. Qed.

(** The wait gives back every handle it was given and touches nothing
    else. *)
Lemma wait_facts (pid : DWORD) (rounds : list (list event)) (last : list event) :
  Forall (running_round pid) rounds ->
  gone_check pid last ->
  let w := (List.concat rounds ++ last)%list in
  flat_map closed w = flat_map opened w
  /\ flat_map freed w = [] /\ flat_map allocated w = []
  /\ existsb (says warning) w = false
  /\ existsb recycle_succeeded w = false
  /\ existsb fallback_succeeded w = false.
Proof.
  cbv zeta. intros Hrounds Hlast. induction Hrounds as [|round rounds Hround _ IH].
  - cbn [List.concat app].
    destruct Hlast as [-> | (hp & ok & code & answer & Hnull & _ & ->)].
    + cbn. repeat split.
    + apply Z.eqb_neq in Hnull. cbn. rewrite Hnull. repeat split.
  - destruct Hround as (hp & answer & Hnull & ->).
    destruct IH as (Hhandles & Hfreed & Hallocated & Hwarning & Hrecycled & Hfallback).
    apply Z.eqb_neq in Hnull.
    cbn [List.concat app flat_map closed opened freed allocated existsb says
           recycle_succeeded fallback_succeeded orb].
    rewrite Hnull, Hhandles, Hfreed, Hallocated, Hwarning, Hrecycled, Hfallback.
    repeat split.
Qed.

(** The package-or-directory step opens nothing, frees what it allocates,
    names no path but the add-on, and warns exactly when it deleted
    nothing. *)
Lemma stage_facts (is_package : bool) (addon : string) (pid : DWORD) (stage : list event) :
  stage_shape is_package addon stage ->
  flat_map closed stage = [] /\ flat_map opened stage = []
  /\ flat_map freed stage = flat_map allocated stage
  /\ existsb (says warning) stage = (negb is_package && negb (deleted_something stage))%bool
  /\ forallb (names_only addon) stage = true
  /\ forallb (watches_only pid) stage = true.
Proof.
  unfold stage_shape, deleted_something. destruct is_package.
  - intros ->. cbn. repeat split.
  - intros (trash & deleted & Hcases & ->).
    destruct Hcases; try destruct removed; cbn; rewrite ?String.eqb_refl;
      repeat match goal with
        | H : ?p <> 0 |- context [?p =? 0] => rewrite (proj2 (Z.eqb_neq p 0) H)
        | H : ?p <> NULL |- context [?p =? NULL] => rewrite (proj2 (Z.eqb_neq p NULL) H)
        end; cbn; repeat split.
Qed.

(** The launch closes the two handles of the new process when there is
    one. *)
Lemma launch_facts (command addon : string) (pid : DWORD) (created : bool)
    (pi : PROCESS_INFORMATION) (after : list event) :
  after_launch created pi after ->
  let tr := (launch_calls command created pi ++ after)%list in
  flat_map closed tr = flat_map opened tr
  /\ flat_map freed tr = [] /\ flat_map allocated tr = []
  /\ existsb (says warning) tr = false
  /\ existsb recycle_succeeded tr = false
  /\ existsb fallback_succeeded tr = false
  /\ forallb (names_only addon) tr = true
  /\ forallb (watches_only pid) tr = true.
Proof.
  cbv zeta. unfold after_launch, launch_calls. destruct created.
  - intros (answer & answer' & ->). cbn. repeat split.
  - intros ->. cbn. repeat split.
Qed.

(** Only calls of a kind that a longer run makes. *)
Lemma run_all_of {R} (os : OS) (t : itree osE R) (p : event -> bool) (fuel n : nat)
    (h : list event) :
  forallb p (trace (run (n + fuel) os h t)) = true ->
  forallb p (trace (run fuel os h t)) = true.
Proof.
  destruct (run_trace_prefix os t fuel n h) as [rest Hrest].
  rewrite Nat.add_comm, Hrest, forallb_app. intros H.
  now apply andb_true_iff in H.
Qed.

(** A run that only prints holds no resource and touches nothing. *)
Lemma printf_only (pid : DWORD) (addon : string) (tr : list event) :
  forallb is_printf tr = true ->
  flat_map closed tr = [] /\ flat_map opened tr = []
  /\ flat_map freed tr = [] /\ flat_map allocated tr = []
  /\ forallb (names_only addon) tr = true
  /\ forallb (watches_only pid) tr = true.
Proof.
  induction tr as [|ev tr IH]; [now repeat split|].
  cbn [forallb]. intros H. apply andb_true_iff in H as [Hev Htr].
  destruct (IH Htr) as (Hc & Ho & Hf & Ha & Hn & Hw).
  destruct ev as [T [] r]; try discriminate Hev.
  cbn. rewrite Hc, Ho, Hf, Ha, Hn, Hw. repeat split.
Qed.

(** With a wrong number of arguments or a pid of 0, [main] only prints,
    however long it is run. *)
Lemma main_rejects (os : OS) (argv : list string) (fuel : nat) :
  List.length argv <> 5%nat \/ pid_of argv = 0 ->
  forallb is_printf (trace (run fuel os [] (main argv))) = true.
Proof.
  intros Hbad. apply (run_all_of os _ _ fuel 7). rewrite main_parts.
  destruct (Z.eqb_spec (Z.of_nat (List.length argv)) 5) as [Hfive|_]; cbn [negb].
  - destruct Hbad as [Hcount | Hpid]; [lia|]. rewrite Hpid. cbn [Z.eqb Nat.add].
    run_all. reflexivity.
  - rewrite run_bind, run_print_usage, and_then_Some, run_Ret. reflexivity.
Qed.

(** X8.  A run of [main] that has returned, whatever its arguments and
    whatever the system answered, has closed every handle it was given, in the
    order it got them, and freed every buffer it allocated, and has closed or
    freed nothing else. *)
Theorem main_releases_what_it_takes (os : OS) (argv : list string) (fuel : nat) (code : Z) :
  result (run fuel os [] (main argv)) = Some code ->
  let tr := trace (run fuel os [] (main argv)) in
  flat_map closed tr = flat_map opened tr
  /\ flat_map freed tr = flat_map allocated tr.
Proof.
  intros Hcode. cbv zeta.
  destruct (Nat.eq_dec (List.length argv) 5) as [Hfive|Hcount];
    [destruct (Z.eq_dec (pid_of argv) 0) as [Hzero|Hpid]|].
  - destruct (printf_only 0 "" _ (main_rejects os argv fuel (or_intror Hzero)))
      as (-> & -> & -> & -> & _). now split.
  - destruct (main_returned_cases os argv Hfive Hpid fuel code Hcode)
      as (w & is_package & stage & created & pi & after
          & -> & _ & _ & (rounds & last & -> & Hrounds & Hlast) & Hstage & Hafter).
    destruct (wait_facts _ _ _ Hrounds Hlast) as (Hw & Hwf & Hwa & _).
    destruct (stage_facts _ _ 0 _ Hstage) as (Hsc & Hso & Hsf & _).
    destruct (launch_facts
                (launch_command (arg argv 2) (arg argv 3)
                   (if is_package then Some (arg argv 4) else None)) "" 0 _ _ _ Hafter)
      as (Hl & Hlf & Hla & _).
    cbv zeta in Hw, Hwf, Hwa, Hl, Hlf, Hla.
    rewrite flat_map_app in Hl, Hlf, Hla.
    rewrite !flat_map_pieces.
    cbn [flat_map waiting_message gone_message closed opened freed allocated app].
    rewrite Hw, Hwf, Hwa, Hsc, Hso, Hsf, Hl, Hlf, Hla, !flat_map_app. now split.
  - destruct (printf_only 0 "" _ (main_rejects os argv fuel (or_introl Hcount)))
      as (-> & -> & -> & -> & _). now split.
Qed.

Lemma main_releases_what_it_takes_witness :
  let tr := trace (run 40 (scripted two_rounds) [] (main directory_argv)) in
  flat_map closed tr = flat_map opened tr
  /\ flat_map freed tr = flat_map allocated tr.
Proof.
  apply (main_releases_what_it_takes (scripted two_rounds) directory_argv 40 0).
  vm_compute. reflexivity.
Defined.

(** X9.  In a run of [main] that has returned, the warning that the add-on
    directory could not be deleted is printed exactly when the fourth argument
    is not a package and neither the recycle bin nor a permanent delete
    reported success: a failed conversion or allocation is warned about like a
    failed delete, and a package never is. *)
Theorem warning_iff_nothing_deleted (os : OS) (argv : list string) (fuel : nat) (code : Z) :
  List.length argv = 5%nat ->
  pid_of argv <> 0 ->
  result (run fuel os [] (main argv)) = Some code ->
  let tr := trace (run fuel os [] (main argv)) in
  exists is_package,
    ends_with (Some (arg argv 4)) (Some ".ankiaddon") = Some is_package
    /\ existsb (says warning) tr = (negb is_package && negb (deleted_something tr))%bool.
Proof.
  intros Hfive Hpid Hcode. cbv zeta.
  destruct (main_returned_cases os argv Hfive Hpid fuel code Hcode)
    as (w & is_package & stage & created & pi & after
        & -> & _ & Hsuffix & (rounds & last & -> & Hrounds & Hlast) & Hstage & Hafter).
  exists is_package. split; [exact Hsuffix|].
  destruct (wait_facts _ _ _ Hrounds Hlast) as (_ & _ & _ & Hww & Hwr & Hwf).
  destruct (stage_facts _ _ 0 _ Hstage) as (_ & _ & _ & Hsw & _).
  destruct (launch_facts
              (launch_command (arg argv 2) (arg argv 3)
                 (if is_package then Some (arg argv 4) else None)) "" 0 _ _ _ Hafter)
    as (_ & _ & _ & Hlw & Hlr & Hlf & _).
  cbv zeta in Hww, Hwr, Hwf, Hlw, Hlr, Hlf.
  unfold deleted_something in *.
  rewrite !existsb_app.
  cbn [existsb waiting_message gone_message says recycle_succeeded fallback_succeeded orb].
  rewrite !(existsb_app _ stage), Hlw, Hlr, Hlf.
  rewrite Hww, Hwr, Hwf, Hsw. unfold deleted_something.
  cbn. now rewrite !orb_false_r.
Qed.

Lemma warning_iff_nothing_deleted_witness :
  let tr := trace (run 20 (scripted nothing_deletes) [] (main directory_argv)) in
  exists is_package,
    ends_with (Some (arg directory_argv 4)) (Some ".ankiaddon") = Some is_package
    /\ existsb (says warning) tr = (negb is_package && negb (deleted_something tr))%bool.
Proof.
  apply (warning_iff_nothing_deleted (scripted nothing_deletes) directory_argv 20 0).
  - reflexivity.
  - vm_compute. discriminate.
  - vm_compute. reflexivity.
Defined.

Section Keeps.

Variable os : OS.
Variable pid : DWORD.
Variable addon : string.

Local Abbreviation keeps := (fun ev => names_only addon ev && watches_only pid ev)%bool.

Lemma check_keeps (fuel : nat) (h : list event) :
  forallb keeps (trace (run fuel os h (is_process_running pid))) = true.
Proof.
  apply (run_all_of os _ _ fuel 3). rewrite run_is_process_running.
  destruct_if; cbn; now rewrite Z.eqb_refl.
Qed.

Lemma pause_keeps (fuel : nat) (h : list event) :
  forallb keeps (trace (run fuel os h (pause pid))) = true.
Proof. apply (run_all_of os _ _ fuel 2). now rewrite run_pause. Qed.

Lemma wait_keeps :
  forall fuel h, forallb keeps (trace (run fuel os h (wait_for_exit pid))) = true.
Proof.
  intros fuel. induction fuel as [fuel IH] using lt_wf_ind. intros h.
  unfold wait_for_exit. rewrite run_while.
  pose proof (check_keeps fuel h) as Hcheck.
  pose proof (run_fuel_left os (is_process_running pid) fuel h) as Hfuel1.
  destruct (run fuel os h (is_process_running pid)) as [d fuel1 [[|]|]];
    cbn [trace fuel_left] in Hcheck, Hfuel1; outcome_simpl; try exact Hcheck.
  pose proof (pause_keeps fuel1 (h ++ d)) as Hpause.
  pose proof (run_fuel_left os (pause pid) fuel1 (h ++ d)) as Hfuel2.
  destruct (run fuel1 os (h ++ d) (pause pid)) as [d' fuel2 [[]|]];
    cbn [trace fuel_left] in Hpause, Hfuel2; outcome_simpl;
    rewrite !forallb_app, Hcheck, Hpause; cbn [andb]; [|reflexivity].
  destruct fuel2 as [|fuel3]; [reflexivity|].
  change (while (is_process_running pid) (pause pid)) with (wait_for_exit pid).
  apply IH. lia.
Qed.

Lemma after_wait_keeps (anki_exe anki_base : string) (fuel : nat) (h : list event) :
  forallb keeps (trace (run fuel os h (after_wait pid anki_exe anki_base addon))) = true.
Proof.
  apply (run_all_of os _ _ fuel 16).
  destruct (run_after_wait_cases os h pid anki_exe anki_base addon fuel)
    as (is_package & stage & created & pi & after & n & _ & -> & _ & Hstage & Hafter).
  destruct (stage_facts _ _ pid _ Hstage) as (_ & _ & _ & _ & Hsn & Hsw).
  destruct (launch_facts
              (launch_command anki_exe anki_base (if is_package then Some addon else None))
              addon pid _ _ _ Hafter)
    as (_ & _ & _ & _ & _ & _ & Hln & Hlw).
  cbv zeta in Hln, Hlw.
  cbn [trace forallb gone_message names_only named_path watches_only andb].
  rewrite forallb_app. apply andb_true_iff. split.
  - apply forallb_forall. intros ev Hev.
    rewrite forallb_forall in Hsn, Hsw. now rewrite (Hsn ev Hev), (Hsw ev Hev).
  - apply forallb_forall. intros ev Hev.
    rewrite forallb_forall in Hln, Hlw. now rewrite (Hln ev Hev), (Hlw ev Hev).
Qed.

End Keeps.

(** X10.  However long it is run and whatever the system answers, [main]
    names no file or directory to the system but its fourth argument, and
    opens no process but the one its first argument gives, and that one only
    to query it. *)
Theorem main_keeps_to_its_arguments (os : OS) (argv : list string) (fuel : nat) :
  let tr := trace (run fuel os [] (main argv)) in
  forallb (names_only (arg argv 4)) tr = true
  /\ forallb (watches_only (pid_of argv)) tr = true.
Proof.
  cbv zeta.
  assert (Hkeeps : forallb
                     (fun ev => names_only (arg argv 4) ev && watches_only (pid_of argv) ev)%bool
                     (trace (run fuel os [] (main argv))) = true).
  { destruct (Nat.eq_dec (List.length argv) 5) as [Hfive|Hcount];
      [destruct (Z.eq_dec (pid_of argv) 0) as [Hzero|Hpid]|].
    - destruct (printf_only (pid_of argv) (arg argv 4) _
                  (main_rejects os argv fuel (or_intror Hzero)))
        as (_ & _ & _ & _ & Hn & Hw).
      apply forallb_forall. intros ev Hev.
      rewrite forallb_forall in Hn, Hw. now rewrite (Hn ev Hev), (Hw ev Hev).
    - destruct fuel as [|fuel]; [now rewrite (run_main_0 os argv Hfive Hpid)|].
      rewrite (run_main os argv Hfive Hpid).
      pose proof (wait_keeps os (pid_of argv) (arg argv 4) fuel
                    [waiting_message (pid_of argv)]) as Hwait.
      destruct (run fuel os [waiting_message (pid_of argv)] (wait_for_exit (pid_of argv)))
        as [w n [[]|]]; cbn [trace] in Hwait; outcome_simpl;
        unfold prepend; cbn [trace forallb waiting_message names_only named_path
                               watches_only andb]; [|exact Hwait].
      rewrite forallb_app, Hwait. apply after_wait_keeps.
    - destruct (printf_only (pid_of argv) (arg argv 4) _
                  (main_rejects os argv fuel (or_introl Hcount)))
        as (_ & _ & _ & _ & Hn & Hw).
      apply forallb_forall. intros ev Hev.
      rewrite forallb_forall in Hn, Hw. now rewrite (Hn ev Hev), (Hw ev Hev). }
  rewrite forallb_forall in Hkeeps.
  split; apply forallb_forall; intros ev Hev;
    specialize (Hkeeps ev Hev); now apply andb_true_iff in Hkeeps.
Qed.

(** ** More on the pid *)

Lemma clamp_long_range (v : Z) : LONG_MIN <= clamp_long v <= LONG_MAX.
Proof.
  unfold clamp_long, LONG_MIN, LONG_MAX.
  destruct (Z.gtb_spec v 2147483647); [lia|].
  destruct (Z.ltb_spec v (-2147483648)); lia.
Qed.

Lemma atol_is_clamped (s : string) : exists v, atol s = clamp_long v.
Proof.
  unfold atol. destruct (skip_space s) as [|c t]; [eexists; reflexivity|].
  destruct c as [[] [] [] [] [] [] [] []]; eexists; reflexivity.
Qed.

Lemma atol_range (s : string) : LONG_MIN <= atol s <= LONG_MAX.
Proof. destruct (atol_is_clamped s) as [v ->]. apply clamp_long_range. Qed.

(** X11.  The pid [main] works with is what [atol] made of the first
    argument, cast to 32 bits without sign: a negative number is not refused
    but becomes a pid of 2^31 or more.  [main] stops with
    [Error: Invalid PID] when [atol] gave 0 and otherwise announces the wait
    for that pid. *)
Theorem pid_check (os : OS) (argv : list string) (fuel : nat) :
  List.length argv = 5%nat ->
  let n := atol (arg argv 1) in
  LONG_MIN <= n <= LONG_MAX
  /\ pid_of argv = (if n <? 0 then n + 2 ^ 32 else n)
  /\ (n = 0 ->
      run (1 + fuel) os [] (main argv)
      = Outcome [Ev (printf ("Error: Invalid PID" ++ newline)) tt] fuel (Some 1))
  /\ (n <> 0 ->
      exists rest,
        trace (run (1 + fuel) os [] (main argv)) = waiting_message (pid_of argv) :: rest).
Proof.
  intros Hfive. cbv zeta.
  pose proof (atol_range (arg argv 1)) as Hrange.
  assert (Hcast : pid_of argv
                  = if atol (arg argv 1) <? 0 then atol (arg argv 1) + 2 ^ 32
                    else atol (arg argv 1)).
  { unfold pid_of, to_DWORD. unfold LONG_MIN, LONG_MAX in Hrange.
    change (2 ^ 32) with 4294967296.
    destruct (Z.ltb_spec (atol (arg argv 1)) 0).
    - symmetry. apply (Z.mod_unique _ _ (-1)); lia.
    - apply Z.mod_small. lia. }
  split; [exact Hrange|]. split; [exact Hcast|]. split.
  - intros Hzero.
    assert (Hpid : pid_of argv = 0) by (rewrite Hcast, Hzero; reflexivity).
    rewrite main_parts, Hfive, Hpid.
    cbn [Z.of_nat Pos.of_succ_nat Pos.succ Z.eqb Pos.eqb negb Nat.add].
    run_all. reflexivity.
  - intros Hnonzero.
    assert (Hpid : pid_of argv <> 0).
    { rewrite Hcast. unfold LONG_MIN in Hrange. change (2 ^ 32) with 4294967296.
      destruct (Z.ltb_spec (atol (arg argv 1)) 0); lia. }
    change (1 + fuel)%nat with (S fuel). rewrite (run_main os argv Hfive Hpid).
    unfold prepend; cbn [trace]. eauto.
Qed.

Lemma pid_check_witness :
  exists rest,
    trace (run (1 + 2) (scripted fair_weather) []
             (main ["restart_anki.exe"; "-1"; "C:\App\app.exe"; "C:\Data";
                    "C:\Data\addons\myaddon"]))
    = waiting_message 4294967295 :: rest.
Proof.
  apply (proj2 (proj2 (proj2
           (pid_check (scripted fair_weather)
              ["restart_anki.exe"; "-1"; "C:\App\app.exe"; "C:\Data";
               "C:\Data\addons\myaddon"] 2 eq_refl)))).
  vm_compute. discriminate.
Defined.
